(** * EPL predictor: team-statistics aggregation and the feature contract

    A shallow embedding of the three scripts of the repository:

    - [PrepareData]  : [01_prepare_data.py]  ([calculate_team_stats],
                       [create_training_data]);
    - [TrainModel]   : [02_train_model.py]   ([feature_cols], [label_names]);
    - [App]          : [app.py]              (artifact loading and [predict]).

    Numbers.  The match columns hold integers (goals, shots); they are
    embedded as [Z].  Python's true division produces a float; the rates and
    averages are embedded as exact rationals ([Q]), compared with [==].
    A division whose divisor is zero, and the mean of an empty column, have
    no rational value: both are [None] in the embedding, so that the guards
    of the source ([max(n, 1)], [if n > 0]) have something to guard.
    The arithmetic of [predict] (the product by 100 and the built-in
    [round]) is embedded on doubles: a finite double is kept as the rational
    it denotes and [Py.to_double] rounds a rational to the nearest double.

    Effects.  [predict] talks to two external capabilities, the fitted
    scaler and the classifier.  They are fields of the loaded state, and
    [predict] returns, next to its outcome, the list of calls it made to
    them.  The two fields of a request are strings or missing, as the
    service interface declares them. *)

From Stdlib Require Import ZArith QArith Qround Qabs Qpower Lqa Lia.
From stdpp Require Import base option list sorting gmap strings.

Local Open Scope Z_scope.

(** ** Python primitives used by the scripts *)

Module Py.

(** [len(x)] *)
Definition len {A} (l : list A) : Z := Z.of_nat (length l).

(** [a / b] on numbers: [ZeroDivisionError] is [None]. *)
Definition truediv (a b : Z) : option Q :=
  if decide (b = 0) then None else Some (inject_Z a / inject_Z b)%Q.

(** [Series.sum()] of an integer column. *)
Definition col_sum {A} (col : A → Z) (rows : list A) : Z :=
  foldr (λ r acc, col r + acc) 0 rows.

(** [Series.mean()]: not a number on an empty column. *)
Definition col_mean {A} (col : A → Z) (rows : list A) : option Q :=
  truediv (col_sum col rows) (len rows).

(** Order of [sorted] on [str]: lexicographic on the characters. *)
Definition str_le (s1 s2 : string) : Prop := String.leb s1 s2 = true.

#[global] Instance str_le_dec s1 s2 : Decision (str_le s1 s2).
Proof. unfold str_le. apply _. Defined.

(** [sorted(xs)] on strings. *)
Definition sorted (xs : list string) : list string := merge_sort str_le xs.

(** Round half to even, the tie rule of the built-in [round]. *)
Definition round_half_even (q : Q) : Z :=
  let f := Qfloor q in
  match (q - inject_Z f ?= 1 # 2)%Q with
  | Lt => f
  | Gt => f + 1
  | Eq => if Z.even f then f else f + 1
  end.

(** Doubles.  A finite double is kept as the rational it denotes.
    [ilog2 q] is the integer part of the binary logarithm of a positive [q];
    [ulp_exp a] is the exponent of the unit in the last place of the doubles
    around [a] (53-bit significands, subnormals from 2^-1074 on). *)
Definition ilog2 (q : Q) : Z :=
  let e0 := Z.log2 (Qnum q) - Z.log2 (Zpos (Qden q)) in
  if Qle_bool (2 ^ e0) q then e0 else e0 - 1.

Definition ulp_exp (a : Q) : Z := Z.max (ilog2 a - 52) (-1074).

(** The double nearest to [q], ties to the even significand (the rounding
    of every float operation; overflow to infinity is not modelled). *)
Definition to_double (q : Q) : Q :=
  let a := Qabs q in
  let s := ulp_exp a in
  let m := round_half_even (a / 2 ^ s) in
  ((if Qle_bool 0 q then 1 else -1) * (inject_Z m * 2 ^ s))%Q.

(** [float(x)] *)
Definition float (x : Q) : Q := to_double x.

(** [x * y] on floats. *)
Definition fmul (x y : Q) : Q := to_double (to_double x * to_double y).

(** [round(x, 1)] on a float: the exact value of the double is rounded
    half to even to one decimal, and the result is the double nearest to
    that decimal. *)
Definition round1 (x : Q) : Q :=
  to_double (inject_Z (round_half_even (to_double x * 10)) / 10).

(** [round(x, 2)] on a float. *)
Definition round2 (x : Q) : Q :=
  to_double (inject_Z (round_half_even (to_double x * 100)) / 100).

(** [d[k]] on a dict literal kept as an ordered association list. *)
Fixpoint getitem {V} (d : list (string * V)) (k : string) : option V :=
  match d with
  | [] => None
  | (k', v) :: d' => if decide (k' = k) then Some v else getitem d' k
  end.

(** [Series.replace(mapping)]: a value that is a key of the dict is
    replaced by what the dict holds for it, any other value is kept. *)
Definition replace (mapping : list (string * string)) (x : string) : string :=
  default x (getitem mapping x).

(** [max(xs, key=key)]: the first element whose key is the largest; it
    raises on an empty iterable. *)
Fixpoint max_from {A} (key : A → Q) (best : A) (xs : list A) : A :=
  match xs with
  | [] => best
  | x :: xs' =>
      if Qlt_le_dec (key best) (key x) then max_from key x xs'
      else max_from key best xs'
  end.

Definition max_by {A} (key : A → Q) (xs : list A) : option A :=
  match xs with
  | [] => None
  | x :: xs' => Some (max_from key x xs')
  end.

End Py.

(** ** 01_prepare_data.py *)

Module PrepareData.
Import Py.

(** One row of [df] (columns [Season] and [NEEDED_COLS]). *)
Record MatchRecord := {
  Season : string;
  HomeTeam : string;
  AwayTeam : string;
  FTHG : Z;
  FTAG : Z;
  FTR : string;
  HS : Z;
  AS : Z;
  HST : Z;
  AST : Z
}.

#[global] Instance MatchRecord_eq_dec : EqDecision MatchRecord.
Proof. solve_decision. Defined.

Abbreviation DataFrame := (list MatchRecord).

(** The value stored under each team in [team_features]. *)
Record TeamStatistics := {
  win_rate : Q;
  draw_rate : Q;
  loss_rate : Q;
  avg_goals_scored : Q;
  avg_goals_conceded : Q;
  goal_difference : Q;
  points_per_game : Q;
  home_win_rate : Q;
  away_win_rate : Q;
  home_goals_avg : Q;
  away_goals_avg : Q;
  shots_avg : Q;
  shots_on_target_avg : Q
}.

(** *** calculate_team_stats: the local variables of the loop body *)

Section Locals.
Variable df : DataFrame.
Variable team : string.

Definition home_matches : DataFrame := filter (λ m, HomeTeam m = team) df.
Definition away_matches : DataFrame := filter (λ m, AwayTeam m = team) df.

Definition home_wins : Z := len (filter (λ m, FTR m = "H"%string) home_matches).
Definition home_draws : Z := len (filter (λ m, FTR m = "D"%string) home_matches).
Definition home_games : Z := len home_matches.

Definition away_wins : Z := len (filter (λ m, FTR m = "A"%string) away_matches).
Definition away_draws : Z := len (filter (λ m, FTR m = "D"%string) away_matches).
Definition away_games : Z := len away_matches.

Definition total_games : Z := home_games + away_games.
Definition total_wins : Z := home_wins + away_wins.
Definition total_draws : Z := home_draws + away_draws.
Definition total_losses : Z := total_games - total_wins - total_draws.

Definition goals_scored : Z := col_sum FTHG home_matches + col_sum FTAG away_matches.
Definition goals_conceded : Z := col_sum FTAG home_matches + col_sum FTHG away_matches.
Definition points : Z := total_wins * 3 + total_draws.

(** The dict assigned to [team_features[team]]. *)
Definition team_entry : option TeamStatistics :=
  v_win_rate ← truediv total_wins (Z.max total_games 1);
  v_draw_rate ← truediv total_draws (Z.max total_games 1);
  v_loss_rate ← truediv total_losses (Z.max total_games 1);
  v_avg_goals_scored ← truediv goals_scored (Z.max total_games 1);
  v_avg_goals_conceded ← truediv goals_conceded (Z.max total_games 1);
  v_goal_difference ← truediv (goals_scored - goals_conceded) (Z.max total_games 1);
  v_points_per_game ← truediv points (Z.max total_games 1);
  v_home_win_rate ← truediv home_wins (Z.max home_games 1);
  v_away_win_rate ← truediv away_wins (Z.max away_games 1);
  v_home_goals_avg ← (if bool_decide (home_games > 0)
                      then col_mean FTHG home_matches else Some 0%Q);
  v_away_goals_avg ← (if bool_decide (away_games > 0)
                      then col_mean FTAG away_matches else Some 0%Q);
  v_shots_avg ← truediv (col_sum HS home_matches + col_sum AS away_matches)
                        (Z.max total_games 1);
  v_shots_on_target_avg ← truediv (col_sum HST home_matches + col_sum AST away_matches)
                                  (Z.max total_games 1);
  Some {| win_rate := v_win_rate;
          draw_rate := v_draw_rate;
          loss_rate := v_loss_rate;
          avg_goals_scored := v_avg_goals_scored;
          avg_goals_conceded := v_avg_goals_conceded;
          goal_difference := v_goal_difference;
          points_per_game := v_points_per_game;
          home_win_rate := v_home_win_rate;
          away_win_rate := v_away_win_rate;
          home_goals_avg := v_home_goals_avg;
          away_goals_avg := v_away_goals_avg;
          shots_avg := v_shots_avg;
          shots_on_target_avg := v_shots_on_target_avg |}.
End Locals.

(** [sorted(set(df["HomeTeam"].unique()) | set(df["AwayTeam"].unique()))] *)
Definition teams (df : DataFrame) : list string :=
  sorted (elements ((list_to_set (HomeTeam <$> df) : gset string)
                    ∪ list_to_set (AwayTeam <$> df))).

(** [for team in teams: team_features[team] = {...}] *)
Fixpoint for_teams (df : DataFrame) (ts : list string)
    (team_features : gmap string TeamStatistics) : option (gmap string TeamStatistics) :=
  match ts with
  | [] => Some team_features
  | team :: ts' =>
      entry ← team_entry df team;
      for_teams df ts' (<[team := entry]> team_features)
  end.

Definition calculate_team_stats (df : DataFrame) : option (gmap string TeamStatistics) :=
  for_teams df (teams df) ∅.

(** *** create_training_data *)

(** A row of the training frame: column name and value, in insertion order. *)
Abbreviation Row := (list (string * Q)).

(** The dict literal [{"H": 0, "D": 1, "A": 2}]. *)
Definition result_code : list (string * Z) :=
  [("H", 0); ("D", 1); ("A", 2)]%string.

(** The dict literal [row = {...}], with [result] already evaluated. *)
Definition training_row (hs as_ : TeamStatistics) (result : Z) : Row :=
  [ ("home_win_rate", win_rate hs);
    ("home_draw_rate", draw_rate hs);
    ("home_avg_goals_scored", avg_goals_scored hs);
    ("home_avg_goals_conceded", avg_goals_conceded hs);
    ("home_goal_diff", goal_difference hs);
    ("home_ppg", points_per_game hs);
    ("home_home_win_rate", home_win_rate hs);
    ("home_shots_avg", shots_avg hs);
    ("home_sot_avg", shots_on_target_avg hs);
    ("away_win_rate", win_rate as_);
    ("away_draw_rate", draw_rate as_);
    ("away_avg_goals_scored", avg_goals_scored as_);
    ("away_avg_goals_conceded", avg_goals_conceded as_);
    ("away_goal_diff", goal_difference as_);
    ("away_ppg", points_per_game as_);
    ("away_away_win_rate", away_win_rate as_);
    ("away_shots_avg", shots_avg as_);
    ("away_sot_avg", shots_on_target_avg as_);
    ("win_rate_diff", win_rate hs - win_rate as_);
    ("ppg_diff", points_per_game hs - points_per_game as_);
    ("goal_diff_diff", goal_difference hs - goal_difference as_);
    ("attack_vs_defense", avg_goals_scored hs - avg_goals_conceded as_);
    ("defense_vs_attack", avg_goals_scored as_ - avg_goals_conceded hs);
    ("result", inject_Z result) ]%string%Q.

(** [for _, match in df.iterrows(): ...]; a [KeyError] of the result
    lookup is [None]. *)
Fixpoint create_training_data (df : DataFrame)
    (team_stats : gmap string TeamStatistics) : option (list Row) :=
  match df with
  | [] => Some []
  | match_ :: df' =>
      let home := HomeTeam match_ in
      let away := AwayTeam match_ in
      match team_stats !! home, team_stats !! away with
      | Some hs, Some as_ =>
          result ← getitem result_code (FTR match_);
          rows ← create_training_data df' team_stats;
          Some (training_row hs as_ result :: rows)
      | _, _ => create_training_data df' team_stats
      end
  end.

(** *** Step D: team names *)

Definition NAME_MAP : list (string * string) :=
  [ ("Manchester City", "Man City"); ("Manchester United", "Man United");
    ("Man Utd", "Man United"); ("Newcastle United", "Newcastle");
    ("Wolverhampton", "Wolves"); ("Wolverhampton Wanderers", "Wolves");
    ("West Ham United", "West Ham"); ("Nottingham Forest", "Nottm Forest");
    ("Nott'm Forest", "Nottm Forest"); ("Sheffield United", "Sheffield United");
    ("Leicester City", "Leicester"); ("Ipswich Town", "Ipswich");
    ("Crystal Palace", "Crystal Palace"); ("Leeds United", "Leeds United");
    ("Tottenham Hotspur", "Tottenham") ]%string.

(** [df["HomeTeam"] = df["HomeTeam"].replace(NAME_MAP)] and the same for
    [AwayTeam]. *)
Definition map_team_names (df : DataFrame) : DataFrame :=
  (λ m, {| Season := Season m;
           HomeTeam := replace NAME_MAP (HomeTeam m);
           AwayTeam := replace NAME_MAP (AwayTeam m);
           FTHG := FTHG m; FTAG := FTAG m; FTR := FTR m;
           HS := HS m; AS := AS m; HST := HST m; AST := AST m |}) <$> df.

End PrepareData.

(** ** 02_train_model.py *)

Module TrainModel.
Import Py PrepareData.

(** [df.columns] of the frame built from the rows (every row of
    [create_training_data] carries the same keys in the same order). *)
Definition columns (df : list Row) : list string :=
  match df with
  | [] => []
  | row :: _ => row.*1
  end.

(** [feature_cols = [c for c in df.columns if c != "result"]] *)
Definition feature_cols (df : list Row) : list string :=
  filter (λ c, c ≠ "result"%string) (columns df).

Definition label_names : list string := ["Home Win"; "Draw"; "Away Win"]%string.

(** The value stored under each model name in [results]; the fitted model
    is the external capability, of some type [M]. *)
Record Result (M : Type) := {
  model : M;
  cv_mean : Q;
  cv_std : Q;
  test_acc : Q;
  y_pred : list Z
}.
Arguments model {M} _.
Arguments cv_mean {M} _.
Arguments cv_std {M} _.
Arguments test_acc {M} _.
Arguments y_pred {M} _.

(** [best_name = max(results, key=lambda k: results[k]["test_acc"])].  The
    dict [results] is kept as its items in insertion order; its keys are
    distinct, so the key function reads the item of the name it is given. *)
Definition best_name {M} (results : list (string * Result M)) : option string :=
  fst <$> max_by (λ item, test_acc item.2) results.

End TrainModel.

(** ** app.py *)

Module App.
Import Py PrepareData.

(** [model_metadata.json] *)
Record Metadata := {
  model_type : string;
  test_accuracy : Q;
  feature_names : list string;
  classes : list string
}.

(** The module-level state after the loading statements.  The scaler and
    the classifier are external capabilities; [None] is an exception
    raised inside them. *)
Record Artifacts := {
  scaler_transform : list Q → option (list Q);
  model_predict : list Q → option Z;
  model_predict_proba : list Q → option (list Q);
  feature_cols : list string;
  team_stats : gmap string TeamStatistics;
  metadata : Metadata
}.

(** What the persisted files hold. *)
Record Stored := {
  model_joblib : (list Q → option Z) * (list Q → option (list Q));
  scaler_joblib : list Q → option (list Q);
  feature_cols_joblib : list string;
  team_stats_json : gmap string TeamStatistics;
  model_metadata_json : Metadata
}.

Inductive Exn := KeyError | IndexError | ExternalError.

(** Module-level loading: the five load statements, then [TEAMS]. *)
Definition load_artifacts (files : Stored) : Exn + Artifacts :=
  inr {| scaler_transform := scaler_joblib files;
         model_predict := (model_joblib files).1;
         model_predict_proba := (model_joblib files).2;
         feature_cols := feature_cols_joblib files;
         team_stats := team_stats_json files;
         metadata := model_metadata_json files |}.

Definition TEAMS (st : Artifacts) : list string :=
  sorted (elements (dom (team_stats st))).

(** Calls made to the external scaler and classifier. *)
Inductive Call :=
| CallTransform (X : list Q)
| CallPredict (X_scaled : list Q)
| CallPredictProba (X_scaled : list Q).

(** Computations that may raise and that record the external calls. *)
Definition Eff (A : Type) : Type := (Exn + A) * list Call.

Definition ret {A} (a : A) : Eff A := (inr a, []).

Definition bind {A B} (m : Eff A) (k : A → Eff B) : Eff B :=
  match m with
  | (inl e, calls) => (inl e, calls)
  | (inr a, calls) => let '(r, calls') := k a in (r, calls ++ calls')
  end.

Definition raising {A} (e : Exn) (o : option A) : Eff A :=
  (match o with Some a => inr a | None => inl e end, []).

Definition external {A} (c : Call) (o : option A) : Eff A :=
  (match o with Some a => inr a | None => inl ExternalError end, [c]).

Notation "x <~ m ;; k" := (bind m (λ x, k))
  (at level 100, m at next level, right associativity).

(** [seq[i]] with Python's negative indices. *)
Definition index {A} (l : list A) (i : Z) : option A :=
  if bool_decide (0 ≤ i) then l !! Z.to_nat i
  else if bool_decide (- len l ≤ i) then l !! Z.to_nat (len l + i)
  else None.

(** [not x] on a JSON string or a missing key. *)
Definition falsy (x : option string) : bool :=
  match x with
  | None => true
  | Some s => bool_decide (s = ""%string)
  end.

(** [x not in team_stats] / [team_stats[x]] *)
Definition stats_of (st : Artifacts) (x : option string) : option TeamStatistics :=
  name ← x; team_stats st !! name.

(** The request body: [data.get("home_team")], [data.get("away_team")]. *)
Record Request := {
  req_home_team : option string;
  req_away_team : option string
}.

Record Body := {
  prediction : string;
  probabilities : list (string * Q);
  home_team : option string;
  away_team : option string;
  model_info : string * Q;
  team_comparison : list (string * Q)
}.

Inductive Outcome :=
| Http400 (error : string)
| Http200 (body : Body)
| Raised (e : Exn).

(** The dict literal [features = {...}] of [predict]. *)
Definition features (hs as_ : TeamStatistics) : list (string * Q) :=
  [ ("home_win_rate", win_rate hs);
    ("home_draw_rate", draw_rate hs);
    ("home_avg_goals_scored", avg_goals_scored hs);
    ("home_avg_goals_conceded", avg_goals_conceded hs);
    ("home_goal_diff", goal_difference hs);
    ("home_ppg", points_per_game hs);
    ("home_home_win_rate", home_win_rate hs);
    ("home_shots_avg", shots_avg hs);
    ("home_sot_avg", shots_on_target_avg hs);
    ("away_win_rate", win_rate as_);
    ("away_draw_rate", draw_rate as_);
    ("away_avg_goals_scored", avg_goals_scored as_);
    ("away_avg_goals_conceded", avg_goals_conceded as_);
    ("away_goal_diff", goal_difference as_);
    ("away_ppg", points_per_game as_);
    ("away_away_win_rate", away_win_rate as_);
    ("away_shots_avg", shots_avg as_);
    ("away_sot_avg", shots_on_target_avg as_);
    ("win_rate_diff", win_rate hs - win_rate as_);
    ("ppg_diff", points_per_game hs - points_per_game as_);
    ("goal_diff_diff", goal_difference hs - goal_difference as_);
    ("attack_vs_defense", avg_goals_scored hs - avg_goals_conceded as_);
    ("defense_vs_attack", avg_goals_scored as_ - avg_goals_conceded hs) ]%string%Q.

(** [[features[col] for col in feature_cols]] *)
Definition feature_array (cols : list string) (feats : list (string * Q)) : option (list Q) :=
  mapM (getitem feats) cols.

Definition outcomes : list string := ["Home Win"; "Draw"; "Away Win"]%string.

(** The part of [predict] after validation. *)
Definition predict_known (st : Artifacts) (home_team away_team : option string)
    (hs as_ : TeamStatistics) : Eff Body :=
  X <~ raising KeyError (feature_array (feature_cols st) (features hs as_)) ;;
  X_scaled <~ external (CallTransform X) (scaler_transform st X) ;;
  prediction <~ external (CallPredict X_scaled) (model_predict st X_scaled) ;;
  probabilities <~ external (CallPredictProba X_scaled) (model_predict_proba st X_scaled) ;;
  label <~ raising IndexError (index outcomes prediction) ;;
  p0 <~ raising IndexError (index probabilities 0) ;;
  p1 <~ raising IndexError (index probabilities 1) ;;
  p2 <~ raising IndexError (index probabilities 2) ;;
  ret {| prediction := label;
         probabilities := [ ("home_win", round1 (fmul (float p0) 100));
                            ("draw", round1 (fmul (float p1) 100));
                            ("away_win", round1 (fmul (float p2) 100)) ]%string%Q;
         home_team := home_team;
         away_team := away_team;
         model_info := (model_type (metadata st),
                        round1 (fmul (test_accuracy (metadata st)) 100));
         team_comparison :=
           [ ("home_ppg", round2 (points_per_game hs));
             ("away_ppg", round2 (points_per_game as_));
             ("home_goals_avg", round2 (avg_goals_scored hs));
             ("away_goals_avg", round2 (avg_goals_scored as_));
             ("home_win_rate", round1 (fmul (win_rate hs) 100));
             ("away_win_rate", round1 (fmul (win_rate as_) 100)) ]%string%Q |}.

Definition predict (st : Artifacts) (data : Request) : Outcome * list Call :=
  let home_team := req_home_team data in
  let away_team := req_away_team data in
  if falsy home_team || falsy away_team then
    (Http400 "Please select both teams", [])
  else if bool_decide (home_team = away_team) then
    (Http400 "Home and away teams must be different", [])
  else
    match stats_of st home_team, stats_of st away_team with
    | Some hs, Some as_ =>
        match predict_known st home_team away_team hs as_ with
        | (inr body, calls) => (Http200 body, calls)
        | (inl e, calls) => (Raised e, calls)
        end
    | _, _ => (Http400 "Unknown team selected", [])
    end.

End App.

(** ** Notions used to state the properties *)

Module Notions.
Import Py PrepareData App.

(** [sum(xs)] on rationals. *)
Definition total (xs : list Q) : Q := foldr Qplus 0%Q xs.

(** [np.argmax]: the first index that holds the maximum; it raises on an
    empty array. *)
Fixpoint argmax_from (best : Q) (best_i i : Z) (xs : list Q) : Z :=
  match xs with
  | [] => best_i
  | x :: xs' =>
      if Qlt_le_dec best x then argmax_from x i (i + 1) xs'
      else argmax_from best best_i (i + 1) xs'
  end.

Definition argmax (xs : list Q) : option Z :=
  match xs with
  | [] => None
  | x :: xs' => Some (argmax_from x 0 1 xs')
  end.

(** The match result a label of the response names. *)
Definition result_named (label : string) : option string :=
  if decide (label = "Home Win"%string) then Some "H"%string
  else if decide (label = "Draw"%string) then Some "D"%string
  else if decide (label = "Away Win"%string) then Some "A"%string
  else None.

(** The classifier behind [model.joblib] as the training script fits it:
    [predict_proba] is a distribution over the three classes 0, 1, 2 and
    [predict] is the class of its largest entry. *)
Definition three_way_classifier (st : Artifacts) : Prop :=
  ∀ X ps, model_predict_proba st X = Some ps →
    length ps = 3%nat ∧ Forall (λ p, 0 <= p)%Q ps ∧ (total ps == 1)%Q
    ∧ model_predict st X = argmax ps.

(** [round(float(p) * 100, 1)], the percentage returned for a probability. *)
Definition as_percent (p : Q) : Q := round1 (fmul (float p) 100).

(** A classifier as the training script fits it, with its arithmetic on
    doubles: [predict_proba] gives three non-negative numbers that add up to
    1 up to the rounding of their sum, and [predict] is the class of its
    largest entry. *)
Definition probability_classifier (st : Artifacts) : Prop :=
  ∀ X ps, model_predict_proba st X = Some ps →
    length ps = 3%nat ∧ Forall (λ p, 0 <= p)%Q ps
    ∧ (Qabs (total ps - 1) <= 1 # 1099511627776)%Q
    ∧ model_predict st X = argmax ps.

(** A team name that is missing from the request, or empty. *)
Definition missing_or_empty (x : option string) : Prop :=
  x = None ∨ x = Some ""%string.

(** A team name that is not a key of the loaded statistics. *)
Definition unknown_team (st : Artifacts) (x : option string) : Prop :=
  ∃ name, x = Some name ∧ team_stats st !! name = None.

Definition invalid_request (st : Artifacts) (data : Request) : Prop :=
  req_home_team data = req_away_team data
  ∨ missing_or_empty (req_home_team data) ∨ missing_or_empty (req_away_team data)
  ∨ unknown_team st (req_home_team data) ∨ unknown_team st (req_away_team data).


(** A row of the match frame that [create_training_data] does not skip. *)
Definition kept (team_stats : gmap string TeamStatistics) (m : MatchRecord) : Prop :=
  is_Some (team_stats !! HomeTeam m) ∧ is_Some (team_stats !! AwayTeam m).

(** The row that [create_training_data] appends for a match. *)
Definition row_of (team_stats : gmap string TeamStatistics) (m : MatchRecord)
    (row : Row) : Prop :=
  ∃ hs as_ result,
    team_stats !! HomeTeam m = Some hs ∧ team_stats !! AwayTeam m = Some as_
    ∧ getitem result_code (FTR m) = Some result
    ∧ row = training_row hs as_ result.

(** The external calls of [predict], in order, once the scaler has
    answered [X_scaled] for [X]. *)
Definition calls_in_order (X X_scaled : list Q) : list Call :=
  [CallTransform X; CallPredict X_scaled; CallPredictProba X_scaled].

End Notions.

(** ** Concrete inputs *)

Module Fixtures.
Import Py PrepareData App.

Definition fixture (home away : string) (fthg ftag : Z) (ftr : string) : MatchRecord :=
  {| Season := "2023-24"; HomeTeam := home; AwayTeam := away;
     FTHG := fthg; FTAG := ftag; FTR := ftr;
     HS := 12; AS := 9; HST := 5; AST := 3 |}.

(** Ten games of one side: five won, three drawn, two lost, 10-5 in goals. *)
Definition ten_games : DataFrame :=
  [ fixture "Arsenal" "Chelsea" 2 0 "H";
    fixture "Arsenal" "Everton" 1 0 "H";
    fixture "Arsenal" "Fulham" 1 1 "D";
    fixture "Arsenal" "Burnley" 0 0 "D";
    fixture "Arsenal" "Luton" 0 1 "A";
    fixture "Chelsea" "Arsenal" 0 2 "A";
    fixture "Everton" "Arsenal" 0 1 "A";
    fixture "Fulham" "Arsenal" 1 2 "A";
    fixture "Burnley" "Arsenal" 1 1 "D";
    fixture "Luton" "Arsenal" 1 0 "H" ]%string.



(** The statistics snapshot computed from [ten_games]. *)
Definition snapshot : gmap string TeamStatistics :=
  default ∅ (calculate_team_stats ten_games).

(** The feature names the training script stores for that snapshot. *)
Definition stored_names : list string :=
  TrainModel.feature_cols (default [] (create_training_data ten_games snapshot)).

(** A scaler fitted on 23 columns (zero mean, unit deviation): it rejects
    any other width. *)
Definition scaler23 (X : list Q) : option (list Q) :=
  if decide (length X = 23%nat) then Some X else None.

Definition demo_metadata : Metadata :=
  {| model_type := "Random Forest"; test_accuracy := 52 # 100;
     feature_names := stored_names; classes := TrainModel.label_names |}.

(** A classifier whose two largest probabilities round to the same
    percentage. *)
Definition close_call : Artifacts :=
  {| scaler_transform := scaler23;
     model_predict := λ _, Some 1;
     model_predict_proba := λ _, Some [4 # 10; 4004 # 10000; 1996 # 10000]%Q;
     feature_cols := stored_names;
     team_stats := snapshot;
     metadata := demo_metadata |}.

(** Persisted files whose feature names are stored in another order. *)
Definition reordered_files : Stored :=
  {| model_joblib := (λ _, Some 0, λ _, Some [6 # 10; 3 # 10; 1 # 10]%Q);
     scaler_joblib := scaler23;
     feature_cols_joblib := reverse stored_names;
     team_stats_json := snapshot;
     model_metadata_json := demo_metadata |}.

Definition arsenal_chelsea : Request :=
  {| req_home_team := Some "Arsenal"%string; req_away_team := Some "Chelsea"%string |}.

Definition arsenal_arsenal : Request :=
  {| req_home_team := Some "Arsenal"%string; req_away_team := Some "Arsenal"%string |}.

(** A classifier whose three percentages are all rounded down. *)
Definition rounded_down : Artifacts :=
  {| scaler_transform := scaler23;
     model_predict := λ _, Some 2;
     model_predict_proba := λ _, Some [34 # 10000; 34 # 10000; 9932 # 10000]%Q;
     feature_cols := stored_names;
     team_stats := snapshot;
     metadata := demo_metadata |}.

(** A classifier fitted on a target without draws: two classes only. *)
Definition two_classes : Artifacts :=
  {| scaler_transform := scaler23;
     model_predict := λ _, Some 0;
     model_predict_proba := λ _, Some [7 # 10; 3 # 10]%Q;
     feature_cols := stored_names;
     team_stats := snapshot;
     metadata := demo_metadata |}.

(** Three evaluated models, two of them with the same best accuracy. *)
Definition three_results : list (string * TrainModel.Result unit) :=
  [ ("Logistic Regression"%string,
     {| TrainModel.model := (); TrainModel.cv_mean := 50 # 100;
        TrainModel.cv_std := 2 # 100; TrainModel.test_acc := 51 # 100;
        TrainModel.y_pred := [0; 0; 2] |});
    ("Random Forest"%string,
     {| TrainModel.model := (); TrainModel.cv_mean := 52 # 100;
        TrainModel.cv_std := 3 # 100; TrainModel.test_acc := 54 # 100;
        TrainModel.y_pred := [0; 1; 2] |});
    ("Gradient Boosting"%string,
     {| TrainModel.model := (); TrainModel.cv_mean := 53 # 100;
        TrainModel.cv_std := 3 # 100; TrainModel.test_acc := 54 # 100;
        TrainModel.y_pred := [0; 2; 2] |}) ].

End Fixtures.

(** ** Facts about the aggregator *)

Module AggregatorFacts.
Import Py PrepareData.

Lemma truediv_guarded (a n : Z) :
  truediv a (Z.max n 1) = Some (inject_Z a / inject_Z (Z.max n 1))%Q.
Proof. unfold truediv. case_decide; [lia | done]. Qed.

Lemma col_mean_nonempty {A} (col : A → Z) (rows : list A) :
  len rows > 0 →
  col_mean col rows = Some (inject_Z (col_sum col rows) / inject_Z (len rows))%Q.
Proof. intros Hpos. unfold col_mean, truediv. case_decide; [lia | done]. Qed.

Lemma len_nonneg {A} (l : list A) : 0 ≤ len l.
Proof. unfold len. lia. Qed.

(** The loop body always produces an entry, and this is what it holds. *)
Lemma team_entry_value (df : DataFrame) (team : string) :
  team_entry df team = Some
    {| win_rate := inject_Z (total_wins df team) / inject_Z (Z.max (total_games df team) 1);
       draw_rate := inject_Z (total_draws df team) / inject_Z (Z.max (total_games df team) 1);
       loss_rate := inject_Z (total_losses df team) / inject_Z (Z.max (total_games df team) 1);
       avg_goals_scored :=
         inject_Z (goals_scored df team) / inject_Z (Z.max (total_games df team) 1);
       avg_goals_conceded :=
         inject_Z (goals_conceded df team) / inject_Z (Z.max (total_games df team) 1);
       goal_difference :=
         inject_Z (goals_scored df team - goals_conceded df team)
         / inject_Z (Z.max (total_games df team) 1);
       points_per_game := inject_Z (points df team) / inject_Z (Z.max (total_games df team) 1);
       home_win_rate := inject_Z (home_wins df team) / inject_Z (Z.max (home_games df team) 1);
       away_win_rate := inject_Z (away_wins df team) / inject_Z (Z.max (away_games df team) 1);
       home_goals_avg :=
         if bool_decide (home_games df team > 0)%Z
         then inject_Z (col_sum FTHG (home_matches df team)) / inject_Z (home_games df team)
         else 0;
       away_goals_avg :=
         if bool_decide (away_games df team > 0)%Z
         then inject_Z (col_sum FTAG (away_matches df team)) / inject_Z (away_games df team)
         else 0;
       shots_avg :=
         inject_Z (col_sum HS (home_matches df team) + col_sum AS (away_matches df team))
         / inject_Z (Z.max (total_games df team) 1);
       shots_on_target_avg :=
         inject_Z (col_sum HST (home_matches df team) + col_sum AST (away_matches df team))
         / inject_Z (Z.max (total_games df team) 1) |}%Q.
Proof.
  unfold team_entry. rewrite !truediv_guarded. simpl.
  destruct (bool_decide (home_games df team > 0)) eqn:Hh;
    destruct (bool_decide (away_games df team > 0)) eqn:Ha; simpl;
    repeat match goal with
    | H : bool_decide _ = true |- _ => apply bool_decide_eq_true in H
    end;
    rewrite ?col_mean_nonempty by assumption; done.
Qed.

Lemma team_entry_total (df : DataFrame) (team : string) : is_Some (team_entry df team).
Proof. rewrite team_entry_value. eauto. Qed.

(** *** Permuting the rows *)

Lemma col_sum_perm {A} (col : A → Z) (l l' : list A) :
  l ≡ₚ l' → col_sum col l = col_sum col l'.
Proof.
  induction 1 as [| x l l' _ IH | x y l | l l' l'' _ IH1 _ IH2]; simpl.
  - reflexivity.
  - by rewrite IH.
  - lia.
  - congruence.
Qed.

Lemma len_perm {A} (l l' : list A) : l ≡ₚ l' → len l = len l'.
Proof. intros Hp. unfold len. by rewrite (Permutation_length Hp). Qed.

Section Permuted.
Variables df df' : DataFrame.
Hypothesis Hperm : df ≡ₚ df'.
Variable team : string.

Lemma home_matches_perm : home_matches df team ≡ₚ home_matches df' team.
Proof. unfold home_matches. by rewrite Hperm. Qed.

Lemma away_matches_perm : away_matches df team ≡ₚ away_matches df' team.
Proof. unfold away_matches. by rewrite Hperm. Qed.

Lemma team_entry_perm : team_entry df team = team_entry df' team.
Proof.
  pose proof home_matches_perm as Hh. pose proof away_matches_perm as Ha.
  unfold team_entry, col_mean, points, goals_scored, goals_conceded, total_losses,
    total_draws, total_wins, total_games, home_wins, home_draws, home_games,
    away_wins, away_draws, away_games.
  rewrite !(col_sum_perm _ _ _ Hh), !(col_sum_perm _ _ _ Ha),
    !(len_perm _ _ Hh), !(len_perm _ _ Ha).
  rewrite !(len_perm _ _ (filter_Permutation _ _ _ Hh)),
    !(len_perm _ _ (filter_Permutation _ _ _ Ha)).
  reflexivity.
Qed.

Lemma teams_perm : teams df = teams df'.
Proof. unfold teams. by rewrite Hperm. Qed.

End Permuted.

Lemma for_teams_perm (df df' : DataFrame) (ts : list string)
    (acc : gmap string TeamStatistics) :
  df ≡ₚ df' → for_teams df ts acc = for_teams df' ts acc.
Proof.
  intros Hp. revert acc.
  induction ts as [| t ts IH]; intros acc; simpl; [done |].
  rewrite (team_entry_perm df df' Hp t).
  destruct (team_entry df' t); simpl; [apply IH | done].
Qed.

Lemma calculate_team_stats_perm (df df' : DataFrame) :
  df ≡ₚ df' → calculate_team_stats df = calculate_team_stats df'.
Proof.
  intros Hp. unfold calculate_team_stats.
  rewrite (teams_perm df df' Hp). by apply for_teams_perm.
Qed.

(** *** What the returned dict holds *)

Lemma for_teams_lookup (df : DataFrame) (ts : list string)
    (acc : gmap string TeamStatistics) :
  ∃ out, for_teams df ts acc = Some out
       ∧ ∀ t, out !! t = if decide (t ∈ ts) then team_entry df t else acc !! t.
Proof.
  revert acc. induction ts as [| a ts IH]; intros acc.
  - exists acc. split; [done |]. intros t.
    case_decide as Hin; [by apply elem_of_nil in Hin | done].
  - cbn [for_teams]. destruct (team_entry_total df a) as [e He]. rewrite He. simpl.
    destruct (IH (<[a := e]> acc)) as (out & Hout & Hlk).
    exists out. split; [done |]. intros t. rewrite Hlk.
    destruct (decide (t ∈ ts)) as [Hin | Hnin].
    + by rewrite decide_True by (by right).
    + destruct (decide (t = a)) as [-> | Hne].
      * rewrite decide_True by left. by rewrite lookup_insert_eq.
      * rewrite decide_False by (rewrite elem_of_cons; tauto).
        by rewrite lookup_insert_ne.
Qed.

Lemma elem_of_teams (df : DataFrame) (t : string) :
  t ∈ teams df ↔ (∃ m, m ∈ df ∧ (HomeTeam m = t ∨ AwayTeam m = t)).
Proof.
  unfold teams, sorted. rewrite merge_sort_Permutation.
  rewrite elem_of_elements, elem_of_union, !elem_of_list_to_set, !list_elem_of_fmap.
  split.
  - intros [(m & -> & Hm) | (m & -> & Hm)]; exists m; auto.
  - intros (m & Hm & [<- | <-]); [left | right]; exists m; auto.
Qed.

Lemma NoDup_teams (df : DataFrame) : NoDup (teams df).
Proof. unfold teams, sorted. rewrite merge_sort_Permutation. apply NoDup_elements. Qed.

Lemma calculate_team_stats_lookup (df : DataFrame) :
  ∃ out, calculate_team_stats df = Some out
       ∧ ∀ t, out !! t = if decide (t ∈ teams df) then team_entry df t else None.
Proof.
  destruct (for_teams_lookup df (teams df) ∅) as (out & Hout & Hlk).
  exists out. split; [done |]. intros t. rewrite Hlk.
  case_decide; [done | apply lookup_empty].
Qed.

Lemma calculate_team_stats_total (df : DataFrame) : is_Some (calculate_team_stats df).
Proof. destruct (calculate_team_stats_lookup df) as (out & -> & _). eauto. Qed.

(** *** Counting games over the teams *)

Lemma col_sum_cons {A} (f : A → Z) (x : A) (l : list A) :
  col_sum f (x :: l) = f x + col_sum f l.
Proof. reflexivity. Qed.

Lemma col_sum_plus {A} (f g : A → Z) (l : list A) :
  col_sum (λ x, f x + g x) l = col_sum f l + col_sum g l.
Proof. induction l as [| x l IH]; simpl; lia. Qed.

Lemma col_sum_once (x : string) (ts : list string) :
  NoDup ts →
  col_sum (λ t, if decide (x = t) then 1 else 0) ts = if decide (x ∈ ts) then 1 else 0.
Proof.
  induction 1 as [| t ts Hnin Hnd IH].
  - case_decide as Hin; [by apply elem_of_nil in Hin | done].
  - rewrite col_sum_cons, IH. destruct (decide (x = t)) as [-> | Hne].
    + destruct (decide (t ∈ ts)); [done |].
      destruct (decide (t ∈ t :: ts)) as [_ | Hn]; [done |].
      exfalso. apply Hn. left.
    + destruct (decide (x ∈ ts)); destruct (decide (x ∈ t :: ts)) as [Hc | Hc];
        try done.
      * exfalso. apply Hc. by right.
      * apply elem_of_cons in Hc. tauto.
Qed.

Lemma home_games_cons (m : MatchRecord) (df : DataFrame) (t : string) :
  home_games (m :: df) t = (if decide (HomeTeam m = t) then 1 else 0) + home_games df t.
Proof.
  unfold home_games, home_matches, len. rewrite filter_cons.
  case_decide; simpl; lia.
Qed.

Lemma away_games_cons (m : MatchRecord) (df : DataFrame) (t : string) :
  away_games (m :: df) t = (if decide (AwayTeam m = t) then 1 else 0) + away_games df t.
Proof.
  unfold away_games, away_matches, len. rewrite filter_cons.
  case_decide; simpl; lia.
Qed.

Lemma col_sum_ext {A} (f g : A → Z) (l : list A) :
  (∀ x, f x = g x) → col_sum f l = col_sum g l.
Proof. intros Hfg. induction l as [| x l IH]; simpl; [done |]. by rewrite Hfg, IH. Qed.

Lemma sum_home_games (df : DataFrame) (ts : list string) :
  NoDup ts → (∀ m, m ∈ df → HomeTeam m ∈ ts) →
  col_sum (home_games df) ts = len df.
Proof.
  intros Hnd. induction df as [| m df IH]; intros Hin.
  - unfold home_games, home_matches, len. simpl.
    clear. induction ts as [| t ts IH]; simpl; [done |]. by rewrite IH.
  - rewrite (col_sum_ext _ _ _ (home_games_cons m df)), col_sum_plus.
    rewrite (col_sum_once _ _ Hnd), decide_True by (apply Hin; left).
    rewrite IH by (intros m' Hm'; apply Hin; by right).
    unfold len. simpl length. lia.
Qed.

Lemma sum_away_games (df : DataFrame) (ts : list string) :
  NoDup ts → (∀ m, m ∈ df → AwayTeam m ∈ ts) →
  col_sum (away_games df) ts = len df.
Proof.
  intros Hnd. induction df as [| m df IH]; intros Hin.
  - unfold away_games, away_matches, len. simpl.
    clear. induction ts as [| t ts IH]; simpl; [done |]. by rewrite IH.
  - rewrite (col_sum_ext _ _ _ (away_games_cons m df)), col_sum_plus.
    rewrite (col_sum_once _ _ Hnd), decide_True by (apply Hin; left).
    rewrite IH by (intros m' Hm'; apply Hin; by right).
    unfold len. simpl length. lia.
Qed.

(** The keys of the returned dict are the teams of the frame. *)
Lemma calculate_team_stats_keys (df : DataFrame) (out : gmap string TeamStatistics) :
  calculate_team_stats df = Some out → elements (dom out) ≡ₚ teams df.
Proof.
  intros Hout. destruct (calculate_team_stats_lookup df) as (out' & Hout' & Hlk).
  assert (out' = out) as -> by congruence.
  apply NoDup_Permutation; [apply NoDup_elements | apply NoDup_teams |].
  intros t. rewrite elem_of_elements, elem_of_dom, Hlk.
  case_decide as Hin.
  - split; [done |]. intros _. apply team_entry_total.
  - split; [intros [? ?]; done | done].
Qed.

(** *** Teams with and without games *)

Lemma len_zero_nil {A} (l : list A) : len l = 0 → l = [].
Proof. unfold len. destruct l; [done | simpl; lia]. Qed.

Lemma no_games_no_rows (df : DataFrame) (team : string) :
  total_games df team = 0 → home_matches df team = [] ∧ away_matches df team = [].
Proof.
  unfold total_games, home_games, away_games. intros Hz.
  pose proof (len_nonneg (home_matches df team)).
  pose proof (len_nonneg (away_matches df team)).
  split; apply len_zero_nil; lia.
Qed.

Lemma played_in_teams (df : DataFrame) (team : string) :
  total_games df team > 0 → team ∈ teams df.
Proof.
  intros Hpos. apply elem_of_teams.
  destruct (home_matches df team) as [| m hm] eqn:Hh.
  - destruct (away_matches df team) as [| m am] eqn:Ha.
    + unfold total_games, home_games, away_games in Hpos.
      rewrite Hh, Ha in Hpos. unfold len in Hpos. simpl length in Hpos. lia.
    + assert (m ∈ away_matches df team) as Hm by (rewrite Ha; left).
      apply list_elem_of_filter in Hm as [Heq Hin]. eauto.
  - assert (m ∈ home_matches df team) as Hm by (rewrite Hh; left).
    apply list_elem_of_filter in Hm as [Heq Hin]. eauto.
Qed.

End AggregatorFacts.

(** ** Facts about the prediction service *)

Module AppFacts.
Import Py PrepareData App Notions.

Lemma predict_known_ok st h a hs as_ body calls :
  predict_known st h a hs as_ = (inr body, calls) →
  ∃ X X_scaled i ps p0 p1 p2,
    feature_array (feature_cols st) (features hs as_) = Some X
    ∧ scaler_transform st X = Some X_scaled
    ∧ model_predict st X_scaled = Some i
    ∧ model_predict_proba st X_scaled = Some ps
    ∧ index outcomes i = Some (prediction body)
    ∧ index ps 0 = Some p0 ∧ index ps 1 = Some p1 ∧ index ps 2 = Some p2
    ∧ probabilities body = [ ("home_win", round1 (fmul (float p0) 100));
                             ("draw", round1 (fmul (float p1) 100));
                             ("away_win", round1 (fmul (float p2) 100)) ]%string%Q
    ∧ calls = [CallTransform X; CallPredict X_scaled; CallPredictProba X_scaled].
Proof.
  unfold predict_known, bind, raising, external, ret.
  destruct (feature_array _ _) as [X |]; [| discriminate].
  destruct (scaler_transform st X) as [Xs |] eqn:Hs; [| discriminate].
  destruct (model_predict st Xs) as [i |] eqn:Hi; [| discriminate].
  destruct (model_predict_proba st Xs) as [ps |] eqn:Hps; [| discriminate].
  destruct (index outcomes i) as [label |] eqn:Hl; [| discriminate].
  destruct (index ps 0) as [p0 |] eqn:H0; [| discriminate].
  destruct (index ps 1) as [p1 |] eqn:H1; [| discriminate].
  destruct (index ps 2) as [p2 |] eqn:H2; [| discriminate].
  intros [= <- <-]. exists X, Xs, i, ps, p0, p1, p2. cbn. repeat split; done.
Qed.

Ltac qcompare_in H :=
  match type of H with
  | (_ ?= _)%Q = Eq => apply Qeq_alt in H
  | (_ ?= _)%Q = Lt => apply Qlt_alt in H
  | (_ ?= _)%Q = Gt => apply Qgt_alt in H
  end.

Lemma rhe_close (q : Q) :
  (inject_Z (round_half_even q) - q <= 1 # 2 ∧ q - inject_Z (round_half_even q) <= 1 # 2)%Q.
Proof.
  unfold round_half_even.
  pose proof (Qfloor_le q) as Hlo. pose proof (Qlt_floor q) as Hhi.
  rewrite inject_Z_plus in Hhi. change (inject_Z 1) with 1%Q in Hhi.
  destruct (q - inject_Z (Qfloor q) ?= 1 # 2)%Q eqn:E.
  - qcompare_in E. destruct (Z.even (Qfloor q)).
    + split; lra.
    + rewrite inject_Z_plus. change (inject_Z 1) with 1%Q. split; lra.
  - qcompare_in E. split; lra.
  - qcompare_in E. rewrite inject_Z_plus. change (inject_Z 1) with 1%Q. split; lra.
Qed.

Lemma rhe_mono (q q' : Q) : (q <= q')%Q → round_half_even q ≤ round_half_even q'.
Proof.
  intros Hle. pose proof (Qfloor_resp_le _ _ Hle) as Hf.
  unfold round_half_even.
  destruct (decide (Qfloor q = Qfloor q')) as [Heq | Hne].
  - rewrite <- Heq.
    destruct (q - inject_Z (Qfloor q) ?= 1 # 2)%Q eqn:E;
      destruct (q' - inject_Z (Qfloor q) ?= 1 # 2)%Q eqn:E';
      qcompare_in E; qcompare_in E';
      try (destruct (Z.even (Qfloor q))); try lia; exfalso; lra.
  - assert (Qfloor q + 1 ≤ Qfloor q') by lia.
    destruct (q - inject_Z (Qfloor q) ?= 1 # 2)%Q;
      destruct (q' - inject_Z (Qfloor q') ?= 1 # 2)%Q;
      try (destruct (Z.even (Qfloor q))); try (destruct (Z.even (Qfloor q'))); lia.
Qed.

Lemma argmax_of_three (p0 p1 p2 : Q) (i : Z) :
  argmax [p0; p1; p2] = Some i →
  ∃ p, index [p0; p1; p2] i = Some p ∧ (p0 <= p)%Q ∧ (p1 <= p)%Q ∧ (p2 <= p)%Q.
Proof.
  unfold argmax. cbn [argmax_from].
  destruct (Qlt_le_dec p0 p1) as [H01 | H01].
  - destruct (Qlt_le_dec p1 p2) as [H12 | H12]; intros [= <-].
    + exists p2. split; [reflexivity |]. repeat split; lra.
    + exists p1. split; [reflexivity |]. repeat split; lra.
  - destruct (Qlt_le_dec p0 p2) as [H02 | H02]; intros [= <-].
    + exists p2. split; [reflexivity |]. repeat split; lra.
    + exists p0. split; [reflexivity |]. repeat split; lra.
Qed.

Lemma index_of_three {A} (x0 x1 x2 : A) (l : list A) :
  length l = 3%nat →
  index l 0 = Some x0 → index l 1 = Some x1 → index l 2 = Some x2 → l = [x0; x1; x2].
Proof.
  destruct l as [| y0 [| y1 [| y2 [| ? ?]]]]; try discriminate.
  intros _. vm_compute. congruence.
Qed.

Lemma getitem_None {V} (d : list (string * V)) (k : string) :
  getitem d k = None ↔ k ∉ d.*1.
Proof.
  induction d as [| [k' v] d IH]; cbn [getitem].
  - split; [intros _; apply not_elem_of_nil | done].
  - rewrite fmap_cons, not_elem_of_cons. cbn [fst]. case_decide as Hk.
    + split; [discriminate | intros [Hne _]; by destruct Hne].
    + rewrite IH. split; [intros ?; split; [congruence | done] | tauto].
Qed.

Lemma index_fmap {A B} (f : A → B) (l : list A) (i : Z) :
  index (f <$> l) i = f <$> index l i.
Proof.
  unfold index, len. rewrite length_fmap.
  repeat case_bool_decide; by rewrite ?list_lookup_fmap.
Qed.

(** *** The three ways out of [predict] *)

Lemma falsy_spec (x : option string) : falsy x = true ↔ missing_or_empty x.
Proof.
  unfold falsy, missing_or_empty. destruct x as [s |].
  - rewrite bool_decide_eq_true. split; [intros ->; by right | intros [? | [= ->]]; done].
  - split; [by left | done].
Qed.

Lemma stats_of_None (st : Artifacts) (x : option string) :
  falsy x = false → stats_of st x = None ↔ unknown_team st x.
Proof.
  unfold stats_of, unknown_team. destruct x as [s |]; cbn; [| discriminate].
  intros _. split.
  - intros Hn. by exists s.
  - by intros (name & [= <-] & Hn).
Qed.

Lemma predict_known_outcome (st : Artifacts) (data : Request) (hs as_ : TeamStatistics) :
  falsy (req_home_team data) = false → falsy (req_away_team data) = false →
  req_home_team data ≠ req_away_team data →
  stats_of st (req_home_team data) = Some hs →
  stats_of st (req_away_team data) = Some as_ →
  predict st data =
    match predict_known st (req_home_team data) (req_away_team data) hs as_ with
    | (inr body, calls) => (Http200 body, calls)
    | (inl e, calls) => (Raised e, calls)
    end.
Proof.
  intros Hh Ha Hne Hhs Has. unfold predict.
  rewrite Hh, Ha, Hhs, Has. cbn [orb].
  by rewrite bool_decide_eq_false_2.
Qed.

Lemma predict_ok_inv (st : Artifacts) (data : Request) (body : Body) (calls : list Call) :
  predict st data = (Http200 body, calls) →
  ∃ hs as_, predict_known st (req_home_team data) (req_away_team data) hs as_
            = (inr body, calls).
Proof.
  unfold predict.
  destruct (falsy (req_home_team data) || falsy (req_away_team data)); [discriminate |].
  destruct (bool_decide (req_home_team data = req_away_team data)); [discriminate |].
  destruct (stats_of st (req_home_team data)) as [hs |]; [| discriminate].
  destruct (stats_of st (req_away_team data)) as [as_ |]; [| discriminate].
  destruct (predict_known st _ _ hs as_) as [[e | b] cs] eqn:Hk; [discriminate |].
  intros [= <- <-]. eauto.
Qed.

Lemma predict_known_first_call (st : Artifacts) (h a : option string)
    (hs as_ : TeamStatistics) (X : list Q) :
  feature_array (feature_cols st) (features hs as_) = Some X →
  head (predict_known st h a hs as_).2 = Some (CallTransform X).
Proof.
  intros HX. unfold predict_known, bind, raising, external. rewrite HX.
  destruct (scaler_transform st X) as [Xs |]; [| reflexivity].
  destruct (model_predict st Xs) as [i |]; [| reflexivity].
  destruct (model_predict_proba st Xs) as [ps |]; [| reflexivity].
  destruct (index outcomes i); [| reflexivity].
  destruct (index ps 0); [| reflexivity].
  destruct (index ps 1); [| reflexivity].
  destruct (index ps 2); reflexivity.
Qed.

Lemma predict_known_key_error (st : Artifacts) (h a : option string)
    (hs as_ : TeamStatistics) :
  feature_array (feature_cols st) (features hs as_) = None →
  predict_known st h a hs as_ = (inl KeyError, []).
Proof. intros HX. unfold predict_known, bind, raising. by rewrite HX. Qed.

End AppFacts.

(** ** Facts about doubles and the returned percentages *)

Module DoubleFacts.
Import Py Notions AppFacts.

Lemma rhe_Z (k : Z) : round_half_even (inject_Z k) = k.
Proof.
  unfold round_half_even. rewrite Qfloor_Z.
  destruct (inject_Z k - inject_Z k ?= 1 # 2)%Q eqn:E; qcompare_in E; [| done |];
    exfalso; lra.
Qed.

Lemma pow2_pos (z : Z) : (0 < 2 ^ z)%Q.
Proof. apply Qpower_0_lt. reflexivity. Qed.

Lemma pow2_plus (a b : Z) : (2 ^ (a + b) == 2 ^ a * 2 ^ b)%Q.
Proof. apply Qpower_plus. discriminate. Qed.

Lemma pow2_le (a b : Z) : a ≤ b → (2 ^ a <= 2 ^ b)%Q.
Proof. intros Hab. apply Qpower_le_compat_l; [done | discriminate]. Qed.

Lemma pow2_lt_inv (a b : Z) : (2 ^ a < 2 ^ b)%Q → a < b.
Proof. intros Hab. apply (Qpower_lt_compat_l_inv 2); [done | reflexivity]. Qed.

Lemma pow2_Z (z : Z) : 0 ≤ z → (2 ^ z == inject_Z (2 ^ z))%Q.
Proof. intros Hz. symmetry. by apply (Zpower_Qpower 2). Qed.

Lemma ilog2_spec (q : Q) :
  (0 < q)%Q → (2 ^ ilog2 q <= q ∧ q < 2 ^ (ilog2 q + 1))%Q.
Proof.
  intros Hq. destruct q as [n d].
  assert (0 < n) as Hn by (unfold Qlt in Hq; cbn in Hq; lia).
  unfold ilog2. cbn [Qnum Qden].
  set (a := Z.log2 n). set (b := Z.log2 (Z.pos d)).
  destruct (Z.log2_spec n Hn) as [Ha1 Ha2].
  destruct (Z.log2_spec (Z.pos d) (Pos2Z.is_pos d)) as [Hb1 Hb2].
  fold a in Ha1, Ha2. fold b in Hb1, Hb2.
  assert (0 ≤ a) as Ha0 by apply Z.log2_nonneg.
  assert (0 ≤ b) as Hb0 by apply Z.log2_nonneg.
  rewrite Zle_Qle, <- pow2_Z in Ha1 by done.
  rewrite Zlt_Qlt, <- pow2_Z in Ha2 by lia.
  rewrite Zle_Qle, <- pow2_Z in Hb1 by done.
  rewrite Zlt_Qlt, <- pow2_Z in Hb2 by lia.
  assert (0 < inject_Z (Z.pos d))%Q as Hd by (by rewrite <- (Zlt_Qlt 0)).
  assert (2 ^ (a - b - 1) <= n # d)%Q as Hlow.
  { rewrite (Qmake_Qdiv n d). apply Qle_shift_div_l; [done |].
    apply Qle_trans with (2 ^ (a - b - 1) * 2 ^ (Z.succ b))%Q.
    - apply Qmult_le_l; [apply pow2_pos | lra].
    - rewrite <- pow2_plus. replace (a - b - 1 + Z.succ b) with a by lia. done. }
  assert (n # d < 2 ^ (a - b + 1))%Q as Hupp.
  { rewrite (Qmake_Qdiv n d). apply Qlt_shift_div_r; [done |].
    apply Qlt_le_trans with (2 ^ (a - b + 1) * 2 ^ b)%Q.
    - rewrite <- pow2_plus. replace (a - b + 1 + b) with (Z.succ a) by lia. done.
    - apply Qmult_le_l; [apply pow2_pos | done]. }
  destruct (Qle_bool (2 ^ (a - b)) (n # d)) eqn:Hb.
  - apply Qle_bool_iff in Hb. done.
  - split; [done |]. replace (a - b - 1 + 1) with (a - b) by lia.
    apply Qnot_le_lt. intros Hle. apply Qle_bool_iff in Hle. congruence.
Qed.

Lemma ilog2_nonpos (q : Q) : (q <= 0)%Q → ilog2 q ≤ 0.
Proof.
  intros Hq. destruct q as [n d].
  assert (n ≤ 0) as Hn by (unfold Qle in Hq; cbn in Hq; lia).
  unfold ilog2. cbn [Qnum Qden].
  rewrite (Z.log2_nonpos n Hn).
  pose proof (Z.log2_nonneg (Z.pos d)).
  destruct (Qle_bool _ _); lia.
Qed.

Lemma ulp_exp_small (a : Q) : (a < 1024)%Q → ulp_exp a ≤ -43.
Proof.
  intros Ha. unfold ulp_exp.
  destruct (Qlt_le_dec 0 a) as [Hpos | Hnonpos].
  - destruct (ilog2_spec a Hpos) as [Hlo _].
    assert (2 ^ ilog2 a < 2 ^ 10)%Q as Hlt.
    { apply Qle_lt_trans with a; [done |]. change (2 ^ 10)%Q with 1024%Q. done. }
    apply pow2_lt_inv in Hlt. lia.
  - pose proof (ilog2_nonpos a Hnonpos). lia.
Qed.

Lemma to_double_error_ulp (q : Q) :
  (Qabs (to_double q - q) <= (1 # 2) * 2 ^ ulp_exp (Qabs q))%Q.
Proof.
  unfold to_double.
  set (a := Qabs q). set (c := (2 ^ ulp_exp a)%Q).
  assert (0 < c)%Q as Hc by apply pow2_pos.
  set (u := (a / c)%Q).
  destruct (rhe_close u) as [H1 H2].
  set (m := inject_Z (round_half_even u)) in *.
  assert (a == u * c)%Q as Hau by (unfold u; field; lra).
  assert (m * c - u * c <= (1 # 2) * c)%Q as Hb1.
  { assert ((m - u) * c <= (1 # 2) * c)%Q as Hb by (apply Qmult_le_r; [done | lra]).
    assert ((m - u) * c == m * c - u * c)%Q as <- by ring.
    done. }
  assert (u * c - m * c <= (1 # 2) * c)%Q as Hb2.
  { assert ((u - m) * c <= (1 # 2) * c)%Q as Hb by (apply Qmult_le_r; [done | lra]).
    assert ((u - m) * c == u * c - m * c)%Q as <- by ring.
    done. }
  apply Qabs_Qle_condition.
  set (mc := (m * c)%Q) in *. set (uc := (u * c)%Q) in *.
  destruct (Qle_bool 0 q) eqn:Hs.
  - apply Qle_bool_iff in Hs. assert (a == q)%Q as Haq by (by apply Qabs_pos).
    split; lra.
  - assert (q <= 0)%Q as Hneg.
    { apply Qlt_le_weak, Qnot_le_lt. intros Hle. apply Qle_bool_iff in Hle. congruence. }
    assert (a == - q)%Q as Haq by (by apply Qabs_neg).
    split; lra.
Qed.

Lemma to_double_error (q : Q) :
  (Qabs q < 1024)%Q → (Qabs (to_double q - q) <= 1 # 17592186044416)%Q.
Proof.
  intros Hq. eapply Qle_trans; [apply to_double_error_ulp |].
  pose proof (ulp_exp_small (Qabs q) Hq) as Hs.
  pose proof (pow2_le _ _ Hs) as Hp.
  change (2 ^ (-43))%Q with (1 # 8796093022208)%Q in Hp.
  set (c := (2 ^ ulp_exp (Qabs q))%Q) in *. clearbody c. lra.
Qed.

Lemma rhe_nonneg (q : Q) : (0 <= q)%Q → 0 ≤ round_half_even q.
Proof. intros Hq. change 0 with (round_half_even 0). by apply rhe_mono. Qed.

Lemma to_double_nonneg_eq (q : Q) :
  (0 <= q)%Q →
  (to_double q == inject_Z (round_half_even (Qabs q / 2 ^ ulp_exp (Qabs q)))
                  * 2 ^ ulp_exp (Qabs q))%Q.
Proof.
  intros Hq. unfold to_double. apply Qle_bool_iff in Hq. rewrite Hq. ring.
Qed.

Lemma to_double_nonneg (q : Q) : (0 <= q)%Q → (0 <= to_double q)%Q.
Proof.
  intros Hq. rewrite (to_double_nonneg_eq q Hq).
  apply Qmult_le_0_compat; [| apply Qlt_le_weak, pow2_pos].
  change 0%Q with (inject_Z 0). rewrite <- Zle_Qle. apply rhe_nonneg.
  apply Qle_shift_div_l; [apply pow2_pos |]. rewrite Qmult_0_l. apply Qabs_nonneg.
Qed.

Lemma to_double_mono (q q' : Q) :
  (0 <= q)%Q → (q <= q')%Q → (to_double q <= to_double q')%Q.
Proof.
  intros Hq Hle.
  assert (0 <= q')%Q as Hq' by lra.
  destruct (Qlt_le_dec 0 q) as [Hpos | Hzero].
  2: { apply Qle_trans with 0%Q; [| by apply to_double_nonneg].
       rewrite (to_double_nonneg_eq q Hq).
       assert (Qabs q == 0)%Q as Ha by (rewrite Qabs_pos by done; lra).
       assert (round_half_even (Qabs q / 2 ^ ulp_exp (Qabs q)) ≤ 0) as Hm.
       { apply Z.le_trans with (round_half_even 0); [| by vm_compute].
         apply rhe_mono.
         apply Qle_shift_div_r; [apply pow2_pos |]. rewrite Qmult_0_l. lra. }
       rewrite Zle_Qle in Hm. change (inject_Z 0) with 0%Q in Hm.
       pose proof (pow2_pos (ulp_exp (Qabs q))). nra. }
  rewrite (to_double_nonneg_eq q Hq), (to_double_nonneg_eq q' Hq').
  assert (Qabs q == q)%Q as Ha by (by apply Qabs_pos).
  assert (Qabs q' == q')%Q as Ha' by (by apply Qabs_pos).
  set (a := Qabs q) in *. set (a' := Qabs q') in *.
  assert (0 < a)%Q as Hapos by lra. assert (0 < a')%Q as Hapos' by lra.
  destruct (ilog2_spec a Hapos) as [Hlo Hhi].
  destruct (ilog2_spec a' Hapos') as [Hlo' Hhi'].
  set (e := ilog2 a) in *. set (e' := ilog2 a') in *.
  assert (e ≤ e') as Hee.
  { assert (2 ^ e < 2 ^ (e' + 1))%Q as Hlt by lra. apply pow2_lt_inv in Hlt. lia. }
  unfold ulp_exp. fold e e'.
  set (s := Z.max (e - 52) (-1074)). set (s' := Z.max (e' - 52) (-1074)).
  pose proof (pow2_pos s) as Hs. pose proof (pow2_pos s') as Hs'.
  destruct (decide (s = s')) as [Heq | Hne].
  - rewrite <- Heq. apply Qmult_le_r; [done |]. rewrite <- Zle_Qle. apply rhe_mono.
    apply Qle_shift_div_l; [done |].
    assert (a / 2 ^ s * 2 ^ s == a)%Q as -> by (field; lra). lra.
  - assert (s < s') as Hss by lia.
    assert (s' = e' - 52) as Hs'eq by lia.
    assert (e + 1 ≤ e') as He1 by lia.
    apply Qle_trans with (2 ^ e')%Q.
    + (* upper bound on the smaller one *)
      destruct (Z.le_gt_cases 0 (e + 1 - s)) as [Hk | Hk].
      * assert (round_half_even (a / 2 ^ s) ≤ 2 ^ (e + 1 - s)) as Hm.
        { rewrite <- (rhe_Z (2 ^ (e + 1 - s))). apply rhe_mono.
          rewrite <- pow2_Z by done. apply Qle_shift_div_r; [done |].
          rewrite <- pow2_plus. replace (e + 1 - s + s) with (e + 1) by lia. lra. }
        rewrite Zle_Qle, <- pow2_Z in Hm by done.
        apply Qle_trans with (2 ^ (e + 1 - s) * 2 ^ s)%Q.
        -- apply Qmult_le_r; done.
        -- rewrite <- pow2_plus. replace (e + 1 - s + s) with (e + 1) by lia.
           by apply pow2_le.
      * assert (round_half_even (a / 2 ^ s) ≤ 1) as Hm.
        { rewrite <- (rhe_Z 1). apply rhe_mono.
          apply Qle_shift_div_r; [done |].
          apply Qle_trans with (2 ^ (e + 1))%Q; [lra |].
          rewrite Qmult_1_l. apply pow2_le. lia. }
        rewrite Zle_Qle in Hm. change (inject_Z 1) with 1%Q in Hm.
        apply Qle_trans with (1 * 2 ^ s)%Q.
        -- apply Qmult_le_r; done.
        -- rewrite Qmult_1_l. apply pow2_le. lia.
    + (* lower bound on the larger one *)
      assert (2 ^ 52 ≤ round_half_even (a' / 2 ^ s')) as Hm.
      { rewrite <- (rhe_Z (2 ^ 52)) at 1. apply rhe_mono.
        rewrite <- pow2_Z by done. apply Qle_shift_div_l; [done |].
        rewrite <- pow2_plus. replace (52 + s') with e' by lia. lra. }
      rewrite Zle_Qle, <- pow2_Z in Hm by done.
      apply Qle_trans with (2 ^ 52 * 2 ^ s')%Q.
      * rewrite <- pow2_plus. replace (52 + s') with e' by lia. lra.
      * apply Qmult_le_r; done.
Qed.

(** *** Percentages *)

Lemma to_double_100 : (to_double 100 == 100)%Q.
Proof. reflexivity. Qed.

Lemma to_double_near (q lo hi : Q) :
  (-1024 < lo)%Q → (hi < 1024)%Q → (lo <= q)%Q → (q <= hi)%Q →
  (q - (1 # 17592186044416) <= to_double q ∧ to_double q <= q + (1 # 17592186044416))%Q.
Proof.
  intros Hlo Hhi Hq1 Hq2.
  assert (Qabs q < 1024)%Q as Habs by (apply Qabs_Qlt_condition; split; lra).
  pose proof (to_double_error q Habs) as Herr.
  apply Qabs_Qle_condition in Herr. split; lra.
Qed.

Lemma as_percent_mono (p p' : Q) :
  (0 <= p)%Q → (p <= p')%Q → (as_percent p <= as_percent p')%Q.
Proof.
  intros Hp Hle. unfold as_percent, round1, fmul, float.
  pose proof (to_double_nonneg p Hp) as H1.
  pose proof (to_double_mono p p' Hp Hle) as H2.
  pose proof (to_double_nonneg _ H1) as H3.
  pose proof (to_double_mono _ _ H1 H2) as H4.
  pose proof to_double_100 as H100.
  assert (0 <= to_double (to_double p) * to_double 100)%Q as H5.
  { apply Qmult_le_0_compat; [done | lra]. }
  assert (to_double (to_double p) * to_double 100
          <= to_double (to_double p') * to_double 100)%Q as H6.
  { apply Qmult_le_r; [lra | done]. }
  pose proof (to_double_nonneg _ H5) as H7.
  pose proof (to_double_mono _ _ H5 H6) as H8.
  pose proof (to_double_nonneg _ H7) as H9.
  pose proof (to_double_mono _ _ H7 H8) as H10.
  set (h := to_double (to_double (to_double (to_double p) * to_double 100))) in *.
  set (h' := to_double (to_double (to_double (to_double p') * to_double 100))) in *.
  assert (round_half_even (h * 10) ≤ round_half_even (h' * 10)) as Hn
    by (apply rhe_mono; lra).
  assert (0 ≤ round_half_even (h * 10)) as Hn0 by (apply rhe_nonneg; lra).
  rewrite Zle_Qle in Hn. rewrite Zle_Qle in Hn0. change (inject_Z 0) with 0%Q in Hn0.
  apply to_double_mono.
  - apply Qle_shift_div_l; [reflexivity | lra].
  - apply Qmult_le_r; [reflexivity | done].
Qed.

(** The percentage returned for a probability: the double of a number
    with one decimal, that number being within a half unit of the last place
    (and the rounding errors of the products) of the probability. *)
Lemma as_percent_form (p : Q) :
  (0 <= p)%Q → (p <= 1 + (1 # 1099511627776))%Q →
  ∃ n : Z,
    as_percent p = to_double (inject_Z n / 10)
    ∧ 0 ≤ n ≤ 1000
    ∧ (Qabs (inject_Z n - 1000 * p) <= (1 # 2) + (1 # 4294967296))%Q
    ∧ (Qabs (as_percent p - inject_Z n * (1 # 10)) <= 1 # 17592186044416)%Q.
Proof.
  intros Hp0 Hp1. unfold as_percent, round1, fmul, float.
  set (f := to_double p).
  destruct (to_double_near p 0 2 ltac:(reflexivity) ltac:(reflexivity) Hp0 ltac:(lra))
    as [Hf1 Hf2]. fold f in Hf1, Hf2.
  set (g := to_double f).
  destruct (to_double_near f (-1) 3 ltac:(reflexivity) ltac:(reflexivity)
              ltac:(lra) ltac:(lra)) as [Hg1 Hg2]. fold g in Hg1, Hg2.
  pose proof to_double_100 as H100.
  set (c := to_double 100) in *.
  assert (g * c == g * 100)%Q as Hz by (rewrite H100; reflexivity).
  set (z := (g * c)%Q) in *.
  set (y := to_double z).
  destruct (to_double_near z (-1) 101 ltac:(reflexivity) ltac:(reflexivity)
              ltac:(lra) ltac:(lra)) as [Hy1 Hy2]. fold y in Hy1, Hy2.
  set (h := to_double y).
  destruct (to_double_near y (-2) 102 ltac:(reflexivity) ltac:(reflexivity)
              ltac:(lra) ltac:(lra)) as [Hh1 Hh2]. fold h in Hh1, Hh2.
  destruct (rhe_close (h * 10)) as [Hn1 Hn2].
  set (n := round_half_even (h * 10)) in *.
  assert (0 ≤ n ≤ 1000) as Hn.
  { assert (inject_Z (-1) < inject_Z n)%Q as Ha
      by (change (inject_Z (-1)) with (-1)%Q; lra).
    assert (inject_Z n < inject_Z 1001)%Q as Hb
      by (change (inject_Z 1001) with 1001%Q; lra).
    rewrite <- Zlt_Qlt in Ha, Hb. lia. }
  exists n. split; [reflexivity |]. split; [exact Hn |]. split.
  - apply Qabs_Qle_condition. split; lra.
  - destruct Hn as [Hn0 Hn1000]. rewrite Zle_Qle in Hn0, Hn1000.
    change (inject_Z 0) with 0%Q in Hn0. change (inject_Z 1000) with 1000%Q in Hn1000.
    unfold Qdiv. change (/ 10)%Q with (1 # 10)%Q.
    destruct (to_double_near (inject_Z n * (1 # 10)) 0 100 ltac:(reflexivity)
                ltac:(reflexivity) ltac:(lra) ltac:(lra)) as [Hr1 Hr2].
    apply Qabs_Qle_condition. split; lra.
Qed.

Lemma as_percent_sum (p0 p1 p2 : Q) :
  (0 <= p0)%Q → (0 <= p1)%Q → (0 <= p2)%Q →
  (Qabs (p0 + p1 + p2 - 1) <= 1 # 1099511627776)%Q →
  (Qabs (as_percent p0 + as_percent p1 + as_percent p2 - 100)
   <= (1 # 10) + (1 # 1099511627776))%Q.
Proof.
  intros H0 H1 H2 Hsum. apply Qabs_Qle_condition in Hsum. destruct Hsum as [Hs1 Hs2].
  destruct (as_percent_form p0 H0 ltac:(lra)) as (n0 & _ & Hn0 & Hc0 & Hr0).
  destruct (as_percent_form p1 H1 ltac:(lra)) as (n1 & _ & Hn1 & Hc1 & Hr1).
  destruct (as_percent_form p2 H2 ltac:(lra)) as (n2 & _ & Hn2 & Hc2 & Hr2).
  apply Qabs_Qle_condition in Hc0, Hc1, Hc2, Hr0, Hr1, Hr2.
  assert (999 ≤ n0 + n1 + n2 ≤ 1001) as [Hlo Hhi].
  { assert (inject_Z 998 < inject_Z (n0 + n1 + n2))%Q as Ha.
    { rewrite !inject_Z_plus. change (inject_Z 998) with 998%Q. lra. }
    assert (inject_Z (n0 + n1 + n2) < inject_Z 1002)%Q as Hb.
    { rewrite !inject_Z_plus. change (inject_Z 1002) with 1002%Q. lra. }
    rewrite <- Zlt_Qlt in Ha, Hb. lia. }
  rewrite Zle_Qle in Hlo, Hhi. rewrite !inject_Z_plus in Hlo, Hhi.
  change (inject_Z 999) with 999%Q in Hlo. change (inject_Z 1001) with 1001%Q in Hhi.
  apply Qabs_Qle_condition. split; lra.
Qed.

Lemma as_percent_range (p : Q) :
  (0 <= p)%Q → (p <= 1 + (1 # 1099511627776))%Q →
  (0 <= as_percent p ∧ as_percent p <= 100)%Q
  ∧ (Qabs (as_percent p - 100 * p) <= (1 # 20) + (1 # 4294967296))%Q.
Proof.
  intros Hp0 Hp1.
  destruct (as_percent_form p Hp0 Hp1) as (n & Hn & [Hn0 Hn1000] & Hc & Hr).
  rewrite Zle_Qle in Hn0, Hn1000.
  change (inject_Z 0) with 0%Q in Hn0. change (inject_Z 1000) with 1000%Q in Hn1000.
  split; [split |].
  - rewrite Hn. apply to_double_nonneg.
    apply Qle_shift_div_l; [reflexivity | lra].
  - rewrite Hn. apply Qle_trans with (to_double 100); [| by rewrite to_double_100].
    apply to_double_mono.
    + apply Qle_shift_div_l; [reflexivity | lra].
    + apply Qle_shift_div_r; [reflexivity | lra].
  - apply Qabs_Qle_condition in Hc, Hr. apply Qabs_Qle_condition. split; lra.
Qed.

Lemma classifier_bounds (p0 p1 p2 : Q) :
  Forall (λ p, 0 <= p)%Q [p0; p1; p2] →
  (Qabs (total [p0; p1; p2] - 1) <= 1 # 1099511627776)%Q →
  ((0 <= p0 ∧ p0 <= 1 + (1 # 1099511627776))
   ∧ (0 <= p1 ∧ p1 <= 1 + (1 # 1099511627776))
   ∧ (0 <= p2 ∧ p2 <= 1 + (1 # 1099511627776)))%Q
  ∧ (Qabs (p0 + p1 + p2 - 1) <= 1 # 1099511627776)%Q.
Proof.
  intros Hpos Hsum.
  apply Forall_cons in Hpos as [Hp0 Hpos]. apply Forall_cons in Hpos as [Hp1 Hpos].
  apply Forall_cons in Hpos as [Hp2 _].
  change (total [p0; p1; p2]) with (p0 + (p1 + (p2 + 0)))%Q in Hsum.
  apply Qabs_Qle_condition in Hsum.
  split; [repeat split; lra |]. apply Qabs_Qle_condition. split; lra.
Qed.

End DoubleFacts.

(** ** The aggregator: [calculate_team_stats] *)

Module Aggregator.
Import Py PrepareData Notions Fixtures AggregatorFacts.

(** C3. Aggregation is order-independent: on every permutation of a list of
    match records [calculate_team_stats] returns the same team-to-statistics
    mapping as on the list itself (and it does return one). *)
Theorem order_independent (df df' : DataFrame) :
  df ≡ₚ df' →
  calculate_team_stats df' = calculate_team_stats df
  ∧ is_Some (calculate_team_stats df)
  ∧ teams df' = teams df.
Proof.
  intros Hp. split; [| split].
  - symmetry. by apply calculate_team_stats_perm.
  - apply calculate_team_stats_total.
  - symmetry. by apply teams_perm.
Qed.

Lemma order_independent_witness :
  ten_games ≡ₚ reverse ten_games
  ∧ calculate_team_stats (reverse ten_games) = calculate_team_stats ten_games
  ∧ is_Some (calculate_team_stats ten_games)
  ∧ teams (reverse ten_games) = teams ten_games.
Proof.
  assert (ten_games ≡ₚ reverse ten_games) as Hp by (symmetry; apply reverse_Permutation).
  split; [exact Hp | exact (order_independent ten_games (reverse ten_games) Hp)].
Defined.

(** C4. A team whose combined record is 5 wins, 3 draws and 2 losses over
    10 games, with 10 goals scored and 5 conceded, gets win_rate 0.5,
    draw_rate 0.3, loss_rate 0.2, goal_difference 0.5 and points_per_game
    (3 * wins + draws) / max(total_games, 1) = 1.8 in the mapping returned by
    [calculate_team_stats]. *)
Theorem record_5_3_2 (df : DataFrame) (team : string) :
  total_wins df team = 5 → total_draws df team = 3 → total_losses df team = 2 →
  total_games df team = 10 →
  goals_scored df team = 10 → goals_conceded df team = 5 →
  ∃ out s, calculate_team_stats df = Some out ∧ out !! team = Some s
    ∧ (win_rate s == 5 # 10)%Q
    ∧ (draw_rate s == 3 # 10)%Q
    ∧ (loss_rate s == 2 # 10)%Q
    ∧ (goal_difference s == 5 # 10)%Q
    ∧ (points_per_game s == 18 # 10)%Q
    ∧ (points_per_game s ==
         inject_Z (3 * total_wins df team + total_draws df team)
         / inject_Z (Z.max (total_games df team) 1))%Q.
Proof.
  intros Hw Hd Hl Hg Hs Hc.
  destruct (calculate_team_stats_lookup df) as (out & Hout & Hlk).
  specialize (Hlk team).
  rewrite decide_True in Hlk by (apply played_in_teams; lia).
  rewrite team_entry_value in Hlk.
  eexists out, _. split; [exact Hout |]. split; [exact Hlk |].
  cbn [win_rate draw_rate loss_rate goal_difference points_per_game].
  unfold points. rewrite Hw, Hd, Hl, Hg, Hs, Hc.
  repeat split; reflexivity.
Qed.

Lemma record_5_3_2_witness :
  total_wins ten_games "Arsenal" = 5 ∧ total_draws ten_games "Arsenal" = 3
  ∧ total_losses ten_games "Arsenal" = 2 ∧ total_games ten_games "Arsenal" = 10
  ∧ goals_scored ten_games "Arsenal" = 10 ∧ goals_conceded ten_games "Arsenal" = 5
  ∧ ∃ out s, calculate_team_stats ten_games = Some out ∧ out !! "Arsenal"%string = Some s
    ∧ (win_rate s == 5 # 10)%Q
    ∧ (draw_rate s == 3 # 10)%Q
    ∧ (loss_rate s == 2 # 10)%Q
    ∧ (goal_difference s == 5 # 10)%Q
    ∧ (points_per_game s == 18 # 10)%Q
    ∧ (points_per_game s ==
         inject_Z (3 * total_wins ten_games "Arsenal" + total_draws ten_games "Arsenal")
         / inject_Z (Z.max (total_games ten_games "Arsenal") 1))%Q.
Proof.
  do 6 (split; [reflexivity |]).
  apply (record_5_3_2 ten_games "Arsenal"); reflexivity.
Defined.

(** C5. For a team with no recorded game every rate and average computed by
    the loop body of [calculate_team_stats] is 0, and the body returns: no
    division by zero and no mean of an empty column is reached. *)
Theorem zero_games_all_zero (df : DataFrame) (team : string) :
  total_games df team = 0 →
  ∃ s, team_entry df team = Some s
    ∧ (win_rate s == 0)%Q ∧ (draw_rate s == 0)%Q ∧ (loss_rate s == 0)%Q
    ∧ (avg_goals_scored s == 0)%Q ∧ (avg_goals_conceded s == 0)%Q
    ∧ (goal_difference s == 0)%Q ∧ (points_per_game s == 0)%Q
    ∧ (home_win_rate s == 0)%Q ∧ (away_win_rate s == 0)%Q
    ∧ (home_goals_avg s == 0)%Q ∧ (away_goals_avg s == 0)%Q
    ∧ (shots_avg s == 0)%Q ∧ (shots_on_target_avg s == 0)%Q.
Proof.
  intros Hzero.
  destruct (no_games_no_rows df team Hzero) as [Hh Ha].
  eexists. split; [apply team_entry_value |].
  unfold points, goals_scored, goals_conceded, total_losses, total_draws, total_wins,
    total_games, home_wins, home_draws, home_games, away_wins, away_draws, away_games.
  rewrite Hh, Ha. cbn.
  repeat split; reflexivity.
Qed.

Lemma zero_games_all_zero_witness :
  total_games ten_games "Wolves" = 0
  ∧ ∃ s, team_entry ten_games "Wolves" = Some s
    ∧ (win_rate s == 0)%Q ∧ (draw_rate s == 0)%Q ∧ (loss_rate s == 0)%Q
    ∧ (avg_goals_scored s == 0)%Q ∧ (avg_goals_conceded s == 0)%Q
    ∧ (goal_difference s == 0)%Q ∧ (points_per_game s == 0)%Q
    ∧ (home_win_rate s == 0)%Q ∧ (away_win_rate s == 0)%Q
    ∧ (home_goals_avg s == 0)%Q ∧ (away_goals_avg s == 0)%Q
    ∧ (shots_avg s == 0)%Q ∧ (shots_on_target_avg s == 0)%Q.
Proof.
  split; [reflexivity |].
  apply (zero_games_all_zero ten_games "Wolves"). reflexivity.
Defined.

(** C8. For every match history the sum, over the teams of the returned
    mapping, of home_games + away_games is twice the number of matches: each
    match is one home game of its home team and one away game of its away
    team. *)
Theorem games_sum_twice_matches (df : DataFrame) :
  ∃ out, calculate_team_stats df = Some out
    ∧ col_sum (λ team, home_games df team + away_games df team) (elements (dom out))
      = 2 * len df
    ∧ col_sum (home_games df) (elements (dom out)) = len df
    ∧ col_sum (away_games df) (elements (dom out)) = len df.
Proof.
  destruct (calculate_team_stats_total df) as [out Hout].
  exists out. split; [done |].
  pose proof (calculate_team_stats_keys df out Hout) as Hkeys.
  assert (col_sum (home_games df) (elements (dom out)) = len df) as Hh.
  { rewrite (col_sum_perm _ _ _ Hkeys).
    apply sum_home_games; [apply NoDup_teams |].
    intros m Hm. apply elem_of_teams. eauto. }
  assert (col_sum (away_games df) (elements (dom out)) = len df) as Ha.
  { rewrite (col_sum_perm _ _ _ Hkeys).
    apply sum_away_games; [apply NoDup_teams |].
    intros m Hm. apply elem_of_teams. eauto. }
  rewrite col_sum_plus. repeat split; [lia | done | done].
Qed.

End Aggregator.

(** ** The feature contract between training and serving *)

Module FeatureContract.
Import Py PrepareData App Notions Fixtures AppFacts.

(** Every row of the training frame is the serving dict of its two teams,
    followed by the encoded result. *)
Lemma create_training_data_rows (df : DataFrame)
    (team_stats : gmap string TeamStatistics) (rows : list Row) :
  create_training_data df team_stats = Some rows →
  Forall (λ row, ∃ hs as_ result,
            row = features hs as_ ++ [("result"%string, inject_Z result)]) rows.
Proof.
  revert rows. induction df as [| m df IH]; intros rows; cbn [create_training_data].
  - intros [= <-]. constructor.
  - destruct (team_stats !! HomeTeam m) as [hs |]; [| by apply IH].
    destruct (team_stats !! AwayTeam m) as [as_ |]; [| by apply IH].
    destruct (getitem result_code (FTR m)) as [result |]; [| discriminate].
    cbn. destruct (create_training_data df team_stats) as [rows' |]; [| discriminate].
    cbn. intros [= <-]. constructor; [| by apply IH].
    by exists hs, as_, result.
Qed.

(** C1. For every pair of team-statistics records the row built by
    [create_training_data] and the dict built by [predict] are one and the
    same feature mapping: the same 23 names, in the same order, each with the
    same value; the names stored by the training script are these names, and
    the serving-time array read through them is the row's values in order. *)
Theorem train_serve_same_features (hs as_ : TeamStatistics) (result : Z) :
  training_row hs as_ result = features hs as_ ++ [("result"%string, inject_Z result)]
  ∧ TrainModel.feature_cols [training_row hs as_ result] = (features hs as_).*1
  ∧ NoDup (features hs as_).*1
  ∧ length (features hs as_) = 23%nat
  ∧ feature_array (TrainModel.feature_cols [training_row hs as_ result]) (features hs as_)
    = Some (features hs as_).*2.
Proof.
  split; [reflexivity |]. split; [reflexivity |].
  split; [| split; reflexivity].
  apply (bool_decide_unpack _). vm_compute. exact I.
Qed.

(** C10. The result encoding of the training target, the class labels of
    the training script and the outcome list of [predict] agree: for every
    class index 0, 1, 2 exactly one result code is encoded by it, and the
    label at that index, in both lists, names that result. *)
Theorem labels_match_codes (i : Z) :
  0 ≤ i ≤ 2 →
  ∃ ftr label,
    getitem result_code ftr = Some i
    ∧ (∀ ftr', getitem result_code ftr' = Some i → ftr' = ftr)
    ∧ index outcomes i = Some label
    ∧ index TrainModel.label_names i = Some label
    ∧ result_named label = Some ftr.
Proof.
  intros Hi. assert (i = 0 ∨ i = 1 ∨ i = 2) as [-> | [-> | ->]] by lia.
  - exists "H"%string, "Home Win"%string. repeat split; try reflexivity.
    intros ftr'. unfold result_code. cbn [getitem].
    repeat case_decide; congruence.
  - exists "D"%string, "Draw"%string. repeat split; try reflexivity.
    intros ftr'. unfold result_code. cbn [getitem].
    repeat case_decide; congruence.
  - exists "A"%string, "Away Win"%string. repeat split; try reflexivity.
    intros ftr'. unfold result_code. cbn [getitem].
    repeat case_decide; congruence.
Qed.

Lemma labels_match_codes_witness :
  0 ≤ 1 ≤ 2
  ∧ ∃ ftr label,
      getitem result_code ftr = Some 1
      ∧ (∀ ftr', getitem result_code ftr' = Some 1 → ftr' = ftr)
      ∧ index outcomes 1 = Some label
      ∧ index TrainModel.label_names 1 = Some label
      ∧ result_named label = Some ftr.
Proof. split; [lia |]. apply (labels_match_codes 1). lia. Defined.

(** C2 (as amended). Loading performs no check of the stored feature
    names: it always yields a serving state that holds the stored list as it
    is.  For a request naming two distinct known teams, [predict] reads every
    stored name from the feature dict it has built: when all stored names are
    names of that dict, the array handed to the scaler holds, position by
    position, the dict's value for the stored name; otherwise the request
    raises [KeyError] before the scaler or the classifier is called. *)
Theorem names_resolved_per_request (files : Stored) (home away : string)
    (hs as_ : TeamStatistics) :
  home ≠ ""%string → away ≠ ""%string → home ≠ away →
  team_stats_json files !! home = Some hs →
  team_stats_json files !! away = Some as_ →
  ∃ st, load_artifacts files = inr st
    ∧ feature_cols st = feature_cols_joblib files
    ∧ match feature_array (feature_cols st) (features hs as_) with
      | Some X =>
          Forall (λ col, col ∈ (features hs as_).*1) (feature_cols st)
          ∧ Forall2 (λ col x, getitem (features hs as_) col = Some x) (feature_cols st) X
          ∧ head (predict st {| req_home_team := Some home;
                                req_away_team := Some away |}).2
            = Some (CallTransform X)
      | None =>
          Exists (λ col, col ∉ (features hs as_).*1) (feature_cols st)
          ∧ predict st {| req_home_team := Some home; req_away_team := Some away |}
            = (Raised KeyError, [])
      end.
Proof.
  intros Hh Ha Hne Hhs Has. eexists. split; [reflexivity |]. split; [reflexivity |].
  cbn [feature_cols].
  set (st := {| scaler_transform := scaler_joblib files |}).
  assert (predict st {| req_home_team := Some home; req_away_team := Some away |}
          = match predict_known st (Some home) (Some away) hs as_ with
            | (inr body, calls) => (Http200 body, calls)
            | (inl e, calls) => (Raised e, calls)
            end) as Hpredict.
  { apply (predict_known_outcome st {| req_home_team := Some home;
                                       req_away_team := Some away |}); cbn.
    - by apply bool_decide_eq_false_2.
    - by apply bool_decide_eq_false_2.
    - congruence.
    - exact Hhs.
    - exact Has. }
  rewrite Hpredict.
  change (feature_cols_joblib files) with (feature_cols st).
  destruct (feature_array (feature_cols st) (features hs as_)) as [X |] eqn:HX.
  - pose proof (predict_known_first_call st (Some home) (Some away) hs as_ X HX) as Hcall.
    unfold feature_array in HX. pose proof HX as HX2. apply mapM_Some in HX2.
    split; [| split; [exact HX2 |]].
    + apply Forall_forall. intros col Hcol.
      destruct (decide (col ∈ (features hs as_).*1)) as [| Hnin]; [done |].
      apply getitem_None in Hnin.
      assert (is_Some (getitem (features hs as_) col)) as [x Hx].
      { assert (is_Some (mapM (getitem (features hs as_)) (feature_cols st)))
          as Hs by eauto.
        apply mapM_is_Some in Hs. rewrite Forall_forall in Hs. by apply Hs. }
      congruence.
    + by destruct (predict_known st (Some home) (Some away) hs as_) as [[e | b] cs].
  - rewrite (predict_known_key_error st _ _ hs as_ HX). split; [| reflexivity].
    unfold feature_array in HX. apply mapM_None in HX.
    apply Exists_exists in HX as (col & Hcol & Hnone).
    apply Exists_exists. exists col. split; [done |]. by apply getitem_None.
Qed.

Lemma names_resolved_per_request_witness :
  "Arsenal"%string ≠ ""%string ∧ "Chelsea"%string ≠ ""%string
  ∧ "Arsenal"%string ≠ "Chelsea"%string
  ∧ ∃ hs as_,
      team_stats_json reordered_files !! "Arsenal"%string = Some hs
      ∧ team_stats_json reordered_files !! "Chelsea"%string = Some as_
      ∧ ∃ st, load_artifacts reordered_files = inr st
          ∧ feature_cols st = feature_cols_joblib reordered_files
          ∧ match feature_array (feature_cols st) (features hs as_) with
            | Some X =>
                Forall (λ col, col ∈ (features hs as_).*1) (feature_cols st)
                ∧ Forall2 (λ col x, getitem (features hs as_) col = Some x)
                    (feature_cols st) X
                ∧ head (predict st arsenal_chelsea).2 = Some (CallTransform X)
            | None =>
                Exists (λ col, col ∉ (features hs as_).*1) (feature_cols st)
                ∧ predict st arsenal_chelsea = (Raised KeyError, [])
            end.
Proof.
  split; [discriminate |]. split; [discriminate |]. split; [discriminate |].
  eexists _, _. split; [vm_compute; reflexivity |]. split; [vm_compute; reflexivity |].
  apply (names_resolved_per_request reordered_files "Arsenal" "Chelsea");
    first [discriminate | vm_compute; reflexivity].
Defined.

(** C2 as stated fails: the stored feature names disagree in order with
    the names of the dict built by [predict], yet loading yields a serving
    state and a prediction request is answered under it. *)
Lemma reordered_names_are_served :
  (∀ hs as_, length (feature_cols_joblib reordered_files) = length (features hs as_).*1
             ∧ feature_cols_joblib reordered_files ≠ (features hs as_).*1)
  ∧ ∃ st body calls,
      load_artifacts reordered_files = inr st
      ∧ predict st arsenal_chelsea = (Http200 body, calls).
Proof.
  split.
  - intros hs as_. split; [reflexivity |]. vm_compute. discriminate.
  - eexists _, _, _. split; [reflexivity |]. vm_compute. reflexivity.
Qed.

End FeatureContract.

(** ** The prediction service: [predict] *)

Module Service.
Import Py PrepareData App Notions Fixtures AppFacts.

(** C6. [predict] answers with a validation error exactly when the two
    names are equal, or one of them is missing or empty, or one of them is
    not a key of the loaded statistics; whenever it does, neither the scaler
    nor the classifier has been called.  In particular Arsenal against
    Arsenal is a validation error, with no call, under every loaded state. *)
Theorem validation_error_iff (st : Artifacts) (data : Request) :
  ((∃ msg, (predict st data).1 = Http400 msg) ↔ invalid_request st data)
  ∧ (∀ msg, (predict st data).1 = Http400 msg → (predict st data).2 = [])
  ∧ predict st arsenal_arsenal = (Http400 "Home and away teams must be different", []).
Proof.
  split; [| split].
  - unfold invalid_request, predict.
    destruct (falsy (req_home_team data)) eqn:Hh.
    { cbn. split; [intros _ | eauto]. right; left. by apply falsy_spec. }
    destruct (falsy (req_away_team data)) eqn:Ha.
    { cbn. split; [intros _ | eauto]. right; right; left. by apply falsy_spec. }
    cbn [orb]. case_bool_decide as Heq.
    { cbn. split; [intros _; by left | eauto]. }
    pose proof (stats_of_None st _ Hh) as Hsh. pose proof (stats_of_None st _ Ha) as Hsa.
    assert (¬ missing_or_empty (req_home_team data)) as Hmh
      by (rewrite <- falsy_spec; congruence).
    assert (¬ missing_or_empty (req_away_team data)) as Hma
      by (rewrite <- falsy_spec; congruence).
    destruct (stats_of st (req_home_team data)) as [hs |].
    + destruct (stats_of st (req_away_team data)) as [as_ |].
      * split.
        -- intros [msg Hmsg]. destruct (predict_known st _ _ hs as_) as [[e | b] cs];
             discriminate.
        -- intros [? | [? | [? | [Hu | Hu]]]]; try done.
           ++ apply Hsh in Hu. discriminate.
           ++ apply Hsa in Hu. discriminate.
      * cbn. split; [intros _ | eauto]. do 4 right. by apply Hsa.
    + cbn. split; [intros _ | eauto]. do 3 right. left. by apply Hsh.
  - intros msg. unfold predict.
    destruct (falsy (req_home_team data) || falsy (req_away_team data)); [done |].
    destruct (bool_decide (req_home_team data = req_away_team data)); [done |].
    destruct (stats_of st (req_home_team data)) as [hs |]; [| done].
    destruct (stats_of st (req_away_team data)) as [as_ |]; [| done].
    destruct (predict_known st _ _ hs as_) as [[e | b] cs]; cbn; discriminate.
  - reflexivity.
Qed.

End Service.

(** ** Further facts about the aggregator *)

Module TallyFacts.
Import Py PrepareData Notions AggregatorFacts.

(** The entry of a team depends on the frame only through its home rows
    and its away rows. *)
Lemma team_entry_rows (df df' : DataFrame) (t : string) :
  home_matches df t = home_matches df' t →
  away_matches df t = away_matches df' t →
  team_entry df t = team_entry df' t.
Proof.
  intros Hh Ha.
  unfold team_entry, col_mean, points, goals_scored, goals_conceded, total_losses,
    total_draws, total_wins, total_games, home_wins, home_draws, home_games,
    away_wins, away_draws, away_games.
  by rewrite Hh, Ha.
Qed.

Lemma len_app {A} (l1 l2 : list A) : len (l1 ++ l2) = len l1 + len l2.
Proof. unfold len. rewrite length_app. lia. Qed.

Lemma col_sum_app {A} (col : A → Z) (l1 l2 : list A) :
  col_sum col (l1 ++ l2) = col_sum col l1 + col_sum col l2.
Proof. induction l1 as [| x l1 IH]; cbn [app]; rewrite ?col_sum_cons; [done | rewrite IH; lia]. Qed.

Lemma home_matches_app (df1 df2 : DataFrame) (t : string) :
  home_matches (df1 ++ df2) t = home_matches df1 t ++ home_matches df2 t.
Proof. unfold home_matches. apply filter_app. Qed.

Lemma away_matches_app (df1 df2 : DataFrame) (t : string) :
  away_matches (df1 ++ df2) t = away_matches df1 t ++ away_matches df2 t.
Proof. unfold away_matches. apply filter_app. Qed.

Lemma len_filter_disjoint {A} (P Q : A → Prop)
    `{∀ x, Decision (P x)} `{∀ x, Decision (Q x)} (l : list A) :
  (∀ x, P x → Q x → False) →
  len (filter P l) + len (filter Q l) ≤ len l.
Proof.
  intros Hdis. unfold len. induction l as [| x l IH]; [done |].
  rewrite !filter_cons. destruct (decide (P x)) as [HP | HP];
    destruct (decide (Q x)) as [HQ | HQ]; cbn [length]; try lia.
  destruct (Hdis x HP HQ).
Qed.

Lemma wins_draws_bounded (df : DataFrame) (t : string) :
  0 ≤ total_wins df t ∧ 0 ≤ total_draws df t
  ∧ total_wins df t + total_draws df t ≤ total_games df t.
Proof.
  unfold total_wins, total_draws, total_games, home_wins, home_draws, home_games,
    away_wins, away_draws, away_games.
  pose proof (len_filter_disjoint (λ m, FTR m = "H"%string) (λ m, FTR m = "D"%string)
                (home_matches df t)) as Hh.
  pose proof (len_filter_disjoint (λ m, FTR m = "A"%string) (λ m, FTR m = "D"%string)
                (away_matches df t)) as Ha.
  pose proof (len_nonneg (filter (λ m, FTR m = "H"%string) (home_matches df t))).
  pose proof (len_nonneg (filter (λ m, FTR m = "D"%string) (home_matches df t))).
  pose proof (len_nonneg (filter (λ m, FTR m = "A"%string) (away_matches df t))).
  pose proof (len_nonneg (filter (λ m, FTR m = "D"%string) (away_matches df t))).
  split; [lia |]. split; [lia |].
  assert (len (filter (λ m, FTR m = "H"%string) (home_matches df t))
          + len (filter (λ m, FTR m = "D"%string) (home_matches df t))
          ≤ len (home_matches df t)) by (apply Hh; congruence).
  assert (len (filter (λ m, FTR m = "A"%string) (away_matches df t))
          + len (filter (λ m, FTR m = "D"%string) (away_matches df t))
          ≤ len (away_matches df t)) by (apply Ha; congruence).
  lia.
Qed.

Lemma teams_played (df : DataFrame) (t : string) : t ∈ teams df → 1 ≤ total_games df t.
Proof.
  intros (m & Hm & Hside)%elem_of_teams.
  unfold total_games, home_games, away_games.
  pose proof (len_nonneg (home_matches df t)). pose proof (len_nonneg (away_matches df t)).
  destruct Hside as [Hh | Ha].
  - assert (m ∈ home_matches df t) as Hin by (by apply list_elem_of_filter).
    destruct (home_matches df t); [by apply elem_of_nil in Hin |].
    unfold len in *. cbn [length] in *. lia.
  - assert (m ∈ away_matches df t) as Hin by (by apply list_elem_of_filter).
    destruct (away_matches df t); [by apply elem_of_nil in Hin |].
    unfold len in *. cbn [length] in *. lia.
Qed.

Lemma entry_of_output (df : DataFrame) (out : gmap string TeamStatistics)
    (t : string) (s : TeamStatistics) :
  calculate_team_stats df = Some out → out !! t = Some s →
  team_entry df t = Some s ∧ 1 ≤ total_games df t.
Proof.
  intros Hout Hs. destruct (calculate_team_stats_lookup df) as (out' & Hout' & Hlk).
  assert (out' = out) as -> by congruence.
  rewrite Hlk in Hs. case_decide as Hin; [| discriminate].
  split; [done | by apply teams_played].
Qed.

Lemma str_le_total : Total str_le.
Proof. intros s1 s2. apply String.leb_total. Qed.

Lemma filter_none {A} (P : A → Prop) `{∀ x, Decision (P x)} (l : list A) :
  (∀ x, x ∈ l → ¬ P x) → filter P l = [].
Proof.
  induction l as [| x l IH]; intros Hno; [done |].
  rewrite filter_cons_False by (apply Hno; left).
  apply IH. intros y Hy. apply Hno. by right.
Qed.

(** *** Sums over the teams *)

Lemma col_sum_scale {A} (c : Z) (f : A → Z) (l : list A) :
  col_sum (λ x, c * f x) l = c * col_sum f l.
Proof.
  induction l as [| x l IH]; rewrite ?col_sum_cons; [cbn; lia | rewrite IH; lia].
Qed.

Lemma col_sum_zero {A} (l : list A) : col_sum (λ _, 0) l = 0.
Proof. induction l as [| x l IH]; rewrite ?col_sum_cons; [done | by rewrite IH]. Qed.

Lemma col_sum_by_key (key : MatchRecord → string) (w : MatchRecord → Z)
    (df : DataFrame) (ts : list string) :
  NoDup ts → (∀ m, m ∈ df → key m ∈ ts) →
  col_sum (λ t, col_sum w (filter (λ m, key m = t) df)) ts = col_sum w df.
Proof.
  intros Hnd. induction df as [| m df IH]; intros Hin.
  - apply col_sum_zero.
  - rewrite (col_sum_ext _ (λ t, w m * (if decide (key m = t) then 1 else 0)
                               + col_sum w (filter (λ m', key m' = t) df))).
    + rewrite col_sum_plus, col_sum_scale, (col_sum_once _ _ Hnd).
      rewrite decide_True by (apply Hin; left).
      rewrite IH by (intros m' Hm'; apply Hin; by right).
      rewrite col_sum_cons. lia.
    + intros t. rewrite filter_cons. case_decide; rewrite ?col_sum_cons; lia.
Qed.

Lemma len_filter_sum {A} (P : A → Prop) `{∀ x, Decision (P x)} (l : list A) :
  len (filter P l) = col_sum (λ x, if decide (P x) then 1 else 0) l.
Proof.
  unfold len. induction l as [| x l IH]; [done |].
  rewrite filter_cons, col_sum_cons, <- IH. case_decide; cbn [length]; lia.
Qed.

(** Summing a per-team sum over home rows (or away rows) over the keys of
    the result gives the sum over the frame. *)
Lemma sum_over_output (df : DataFrame) (out : gmap string TeamStatistics)
    (w : MatchRecord → Z) :
  calculate_team_stats df = Some out →
  col_sum (λ t, col_sum w (home_matches df t)) (elements (dom out)) = col_sum w df
  ∧ col_sum (λ t, col_sum w (away_matches df t)) (elements (dom out)) = col_sum w df.
Proof.
  intros Hout. pose proof (calculate_team_stats_keys df out Hout) as Hkeys.
  rewrite !(col_sum_perm _ _ _ Hkeys). unfold home_matches, away_matches. split.
  - apply (col_sum_by_key HomeTeam); [apply NoDup_teams |].
    intros m Hm. apply elem_of_teams. eauto.
  - apply (col_sum_by_key AwayTeam); [apply NoDup_teams |].
    intros m Hm. apply elem_of_teams. eauto.
Qed.

(** *** Rates as quotients *)

Lemma inject_Z_pos (g : Z) : 0 < g → (0 < inject_Z g)%Q.
Proof. intros Hg. change 0%Q with (inject_Z 0). by rewrite <- Zlt_Qlt. Qed.

Lemma quotient_bounds (a g lo hi : Z) :
  0 < g → lo * g ≤ a ≤ hi * g →
  (inject_Z lo <= inject_Z a / inject_Z g ∧ inject_Z a / inject_Z g <= inject_Z hi)%Q.
Proof.
  intros Hg [Hlo Hhi]. pose proof (inject_Z_pos g Hg) as HG. split.
  - apply Qle_shift_div_l; [done |]. rewrite <- inject_Z_mult. by rewrite <- Zle_Qle.
  - apply Qle_shift_div_r; [done |]. rewrite <- inject_Z_mult. by rewrite <- Zle_Qle.
Qed.

Lemma len_by_code (df : DataFrame) :
  len df = len (filter (λ m, FTR m = "H"%string) df)
           + len (filter (λ m, FTR m = "D"%string) df)
           + len (filter (λ m, FTR m = "A"%string) df)
           + len (filter (λ m, FTR m ∉ ["H"; "D"; "A"]%string) df).
Proof.
  unfold len. induction df as [| m df IH]; [done |].
  rewrite !filter_cons. cbn [length].
  destruct (decide (FTR m = "H"%string)) as [HH | HH];
    destruct (decide (FTR m = "D"%string)) as [HD | HD];
    destruct (decide (FTR m = "A"%string)) as [HA | HA];
    destruct (decide (FTR m ∉ ["H"; "D"; "A"]%string)) as [HO | HO];
    cbn [length]; try congruence; try lia.
  - exfalso. apply HO. rewrite HH. left.
  - exfalso. apply HO. rewrite HD. right. left.
  - exfalso. apply HO. rewrite HA. right. right. left.
  - exfalso. apply HO. rewrite !not_elem_of_cons. repeat split; try done.
    apply not_elem_of_nil.
Qed.

(** *** The counters under concatenation and permutation *)




End TallyFacts.

(** ** Invariants of the aggregator *)

Module AggregatorInvariants.
Import Py PrepareData Notions Fixtures AggregatorFacts TallyFacts.

(** X1. The returned dict has exactly one entry for every team that occurs
    as home or away team of some row, and no other key; the entry of a team
    is what the loop body computes for it; the keys are inserted in sorted
    order, without repetition. *)
Theorem keys_are_the_teams (df : DataFrame) :
  ∃ out, calculate_team_stats df = Some out
    ∧ (∀ t, is_Some (out !! t) ↔ ∃ m, m ∈ df ∧ (HomeTeam m = t ∨ AwayTeam m = t))
    ∧ (∀ t s, out !! t = Some s → team_entry df t = Some s)
    ∧ Sorted str_le (teams df) ∧ NoDup (teams df)
    ∧ elements (dom out) ≡ₚ teams df.
Proof.
  destruct (calculate_team_stats_lookup df) as (out & Hout & Hlk).
  exists out. split; [done |]. split; [| split; [| split; [| split]]].
  - intros t. rewrite Hlk, <- elem_of_teams. case_decide as Hin.
    + split; [done | intros _; apply team_entry_total].
    + split; [intros [? ?]; done | done].
  - intros t s Hs. by apply (entry_of_output df out).
  - apply (@Sorted_merge_sort _ str_le _ str_le_total).
  - apply NoDup_teams.
  - by apply calculate_team_stats_keys.
Qed.

(** X2. For every team of the returned dict the win, draw and loss rates
    are between 0 and 1 and the points per game between 0 and 3. *)
Theorem rates_bounded (df : DataFrame) (out : gmap string TeamStatistics)
    (t : string) (s : TeamStatistics) :
  calculate_team_stats df = Some out → out !! t = Some s →
  (0 <= win_rate s ∧ win_rate s <= 1)%Q
  ∧ (0 <= draw_rate s ∧ draw_rate s <= 1)%Q
  ∧ (0 <= loss_rate s ∧ loss_rate s <= 1)%Q
  ∧ (0 <= points_per_game s ∧ points_per_game s <= 3)%Q.
Proof.
  intros Hout Hs. destruct (entry_of_output df out t s Hout Hs) as [He Hg].
  rewrite team_entry_value in He. injection He as <-.
  cbn [win_rate draw_rate loss_rate points_per_game].
  destruct (wins_draws_bounded df t) as (Hw & Hd & Hwd).
  repeat split;
    first [ apply (quotient_bounds _ _ 0 1); [lia | unfold total_losses; lia]
          | apply (quotient_bounds _ _ 0 3); [lia | unfold points; lia] ].
Qed.

Lemma rates_bounded_witness :
  ∃ out s, calculate_team_stats ten_games = Some out ∧ out !! "Chelsea"%string = Some s
    ∧ (0 <= win_rate s ∧ win_rate s <= 1)%Q
    ∧ (0 <= draw_rate s ∧ draw_rate s <= 1)%Q
    ∧ (0 <= loss_rate s ∧ loss_rate s <= 1)%Q
    ∧ (0 <= points_per_game s ∧ points_per_game s <= 3)%Q.
Proof.
  eexists _, _. split; [vm_compute; reflexivity |]. split; [vm_compute; reflexivity |].
  eapply (rates_bounded ten_games _ "Chelsea"); vm_compute; reflexivity.
Defined.

(** X4. Goals are conserved: summed over the teams of the returned dict,
    the goals scored and the goals conceded both equal the goals of all rows. *)
Theorem goals_conserved (df : DataFrame) :
  ∃ out, calculate_team_stats df = Some out
    ∧ col_sum (goals_scored df) (elements (dom out)) = col_sum (λ m, FTHG m + FTAG m) df
    ∧ col_sum (goals_conceded df) (elements (dom out)) = col_sum (λ m, FTHG m + FTAG m) df.
Proof.
  destruct (calculate_team_stats_total df) as [out Hout].
  exists out. split; [done |].
  destruct (sum_over_output df out FTHG Hout) as [Hhh Hah].
  destruct (sum_over_output df out FTAG Hout) as [Hha Haa].
  unfold goals_scored, goals_conceded. rewrite !col_sum_plus. lia.
Qed.

(** X5. Results are accounted per code: over the teams of the returned
    dict, the wins add up to the number of rows coded H or A, the draws to
    twice the rows coded D, and the losses to the rows coded H or A plus twice
    the rows with any other code (such a row is a loss for both sides); the
    points add up to three per decided row and two per drawn row. *)
Theorem results_accounting (df : DataFrame) :
  ∃ out, calculate_team_stats df = Some out
    ∧ col_sum (total_wins df) (elements (dom out))
      = len (filter (λ m, FTR m = "H"%string) df) + len (filter (λ m, FTR m = "A"%string) df)
    ∧ col_sum (total_draws df) (elements (dom out))
      = 2 * len (filter (λ m, FTR m = "D"%string) df)
    ∧ col_sum (total_losses df) (elements (dom out))
      = len (filter (λ m, FTR m = "H"%string) df) + len (filter (λ m, FTR m = "A"%string) df)
        + 2 * len (filter (λ m, FTR m ∉ ["H"; "D"; "A"]%string) df)
    ∧ col_sum (points df) (elements (dom out))
      = 3 * (len (filter (λ m, FTR m = "H"%string) df)
             + len (filter (λ m, FTR m = "A"%string) df))
        + 2 * len (filter (λ m, FTR m = "D"%string) df).
Proof.
  destruct (calculate_team_stats_total df) as [out Hout].
  exists out. split; [done |].
  set (ts := elements (dom out)).
  assert (col_sum (home_wins df) ts = len (filter (λ m, FTR m = "H"%string) df)) as Hhw.
  { unfold home_wins.
    rewrite (col_sum_ext _ _ _ (λ t, len_filter_sum (λ m, FTR m = "H"%string)
                                       (home_matches df t))).
    rewrite (proj1 (sum_over_output df out _ Hout)). by rewrite len_filter_sum. }
  assert (col_sum (away_wins df) ts = len (filter (λ m, FTR m = "A"%string) df)) as Haw.
  { unfold away_wins.
    rewrite (col_sum_ext _ _ _ (λ t, len_filter_sum (λ m, FTR m = "A"%string)
                                       (away_matches df t))).
    rewrite (proj2 (sum_over_output df out _ Hout)). by rewrite len_filter_sum. }
  assert (col_sum (home_draws df) ts = len (filter (λ m, FTR m = "D"%string) df)) as Hhd.
  { unfold home_draws.
    rewrite (col_sum_ext _ _ _ (λ t, len_filter_sum (λ m, FTR m = "D"%string)
                                       (home_matches df t))).
    rewrite (proj1 (sum_over_output df out _ Hout)). by rewrite len_filter_sum. }
  assert (col_sum (away_draws df) ts = len (filter (λ m, FTR m = "D"%string) df)) as Had.
  { unfold away_draws.
    rewrite (col_sum_ext _ _ _ (λ t, len_filter_sum (λ m, FTR m = "D"%string)
                                       (away_matches df t))).
    rewrite (proj2 (sum_over_output df out _ Hout)). by rewrite len_filter_sum. }
  pose proof (calculate_team_stats_keys df out Hout) as Hkeys.
  assert (col_sum (home_games df) ts = len df) as Hhg.
  { unfold ts. rewrite (col_sum_perm _ _ _ Hkeys).
    apply sum_home_games; [apply NoDup_teams |].
    intros m Hm. apply elem_of_teams. eauto. }
  assert (col_sum (away_games df) ts = len df) as Hag.
  { unfold ts. rewrite (col_sum_perm _ _ _ Hkeys).
    apply sum_away_games; [apply NoDup_teams |].
    intros m Hm. apply elem_of_teams. eauto. }
  assert (col_sum (total_wins df) ts = col_sum (home_wins df) ts + col_sum (away_wins df) ts)
    as Hw by (unfold total_wins; apply col_sum_plus).
  assert (col_sum (total_draws df) ts
          = col_sum (home_draws df) ts + col_sum (away_draws df) ts)
    as Hd by (unfold total_draws; apply col_sum_plus).
  assert (col_sum (total_losses df) ts
          = col_sum (home_games df) ts + col_sum (away_games df) ts
            - col_sum (total_wins df) ts - col_sum (total_draws df) ts) as Hl.
  { unfold total_losses, total_games.
    rewrite (col_sum_ext _ (λ t, (home_games df t + away_games df t)
                                 + ((-1) * total_wins df t + (-1) * total_draws df t)))
      by (intros; lia).
    rewrite !col_sum_plus, !col_sum_scale. lia. }
  assert (col_sum (points df) ts
          = 3 * col_sum (total_wins df) ts + col_sum (total_draws df) ts) as Hp.
  { unfold points.
    rewrite (col_sum_ext _ (λ t, 3 * total_wins df t + total_draws df t)) by (intros; lia).
    by rewrite col_sum_plus, col_sum_scale. }
  pose proof (len_by_code df) as Hcode.
  repeat split; lia.
Qed.

(** X6. Rows that do not involve a team leave its entry alone: if a frame
    is, up to the order of its rows, [df] together with rows in which the
    team is neither home nor away, the team has the same entry (or the same
    absence of one) as on [df]. *)
Theorem untouched_team (df extra df' : DataFrame) (t : string) :
  df' ≡ₚ df ++ extra →
  (∀ m, m ∈ extra → HomeTeam m ≠ t ∧ AwayTeam m ≠ t) →
  ∃ out out', calculate_team_stats df = Some out
    ∧ calculate_team_stats df' = Some out'
    ∧ out' !! t = out !! t.
Proof.
  intros Hperm Hextra.
  destruct (calculate_team_stats_lookup df) as (out & Hout & Hlk).
  destruct (calculate_team_stats_lookup (df ++ extra)) as (out' & Hout' & Hlk').
  exists out, out'. split; [done |].
  split; [by rewrite (calculate_team_stats_perm _ _ Hperm) |].
  rewrite Hlk, Hlk'.
  assert (home_matches (df ++ extra) t = home_matches df t) as Hh.
  { rewrite home_matches_app. unfold home_matches at 2.
    rewrite filter_none, app_nil_r; [done |]. intros m Hm. by apply Hextra. }
  assert (away_matches (df ++ extra) t = away_matches df t) as Ha.
  { rewrite away_matches_app. unfold away_matches at 2.
    rewrite filter_none, app_nil_r; [done |]. intros m Hm. by apply Hextra. }
  rewrite (team_entry_rows _ _ _ Hh Ha).
  assert (t ∈ teams (df ++ extra) ↔ t ∈ teams df) as Hiff.
  { rewrite !elem_of_teams. split.
    - intros (m & [Hm | Hm]%elem_of_app & Hside); [eauto |].
      destruct (Hextra m Hm). tauto.
    - intros (m & Hm & Hside). exists m. split; [apply elem_of_app; by left | done]. }
  destruct (decide (t ∈ teams df)) as [Hin | Hin].
  - by rewrite decide_True by (by apply Hiff).
  - by rewrite decide_False by (by rewrite Hiff).
Qed.

Lemma untouched_team_witness :
  ten_games ≡ₚ take 9 ten_games ++ drop 9 ten_games
  ∧ (∀ m, m ∈ drop 9 ten_games →
       HomeTeam m ≠ "Chelsea"%string ∧ AwayTeam m ≠ "Chelsea"%string)
  ∧ ∃ out out', calculate_team_stats (take 9 ten_games) = Some out
      ∧ calculate_team_stats ten_games = Some out'
      ∧ out' !! "Chelsea"%string = out !! "Chelsea"%string.
Proof.
  assert (∀ m, m ∈ drop 9 ten_games →
            HomeTeam m ≠ "Chelsea"%string ∧ AwayTeam m ≠ "Chelsea"%string) as Hextra.
  { intros m Hm. apply list_elem_of_singleton in Hm as ->. split; discriminate. }
  split; [reflexivity |]. split; [exact Hextra |].
  exact (untouched_team (take 9 ten_games) (drop 9 ten_games) ten_games "Chelsea"
           (reflexivity _) Hextra).
Defined.

(** X7. The counters of the loop body are additive over concatenated
    frames: games, wins, draws, losses, goals and points of a team on
    [df1 ++ df2] are the sums of those on [df1] and on [df2]. *)
Theorem tallies_add (df1 df2 : DataFrame) (t : string) :
  home_games (df1 ++ df2) t = home_games df1 t + home_games df2 t
  ∧ away_games (df1 ++ df2) t = away_games df1 t + away_games df2 t
  ∧ total_games (df1 ++ df2) t = total_games df1 t + total_games df2 t
  ∧ total_wins (df1 ++ df2) t = total_wins df1 t + total_wins df2 t
  ∧ total_draws (df1 ++ df2) t = total_draws df1 t + total_draws df2 t
  ∧ total_losses (df1 ++ df2) t = total_losses df1 t + total_losses df2 t
  ∧ goals_scored (df1 ++ df2) t = goals_scored df1 t + goals_scored df2 t
  ∧ goals_conceded (df1 ++ df2) t = goals_conceded df1 t + goals_conceded df2 t
  ∧ points (df1 ++ df2) t = points df1 t + points df2 t.
Proof.
  unfold points, goals_scored, goals_conceded, total_losses, total_draws, total_wins,
    total_games, home_wins, home_draws, home_games, away_wins, away_draws, away_games.
  rewrite home_matches_app, away_matches_app, !filter_app, !len_app, !col_sum_app.
  repeat split; lia.
Qed.

(** X9. A team without away games: its away win rate and away goals
    average are 0 (both guards are taken), and its overall win rate and goals
    average are its home ones. *)
Theorem no_away_games (df : DataFrame) (t : string) :
  away_games df t = 0 →
  ∃ s, team_entry df t = Some s
    ∧ (away_win_rate s == 0)%Q ∧ (away_goals_avg s == 0)%Q
    ∧ (win_rate s == home_win_rate s)%Q
    ∧ (avg_goals_scored s == home_goals_avg s)%Q.
Proof.
  intros Hz. eexists. split; [apply team_entry_value |].
  cbn [away_win_rate away_goals_avg win_rate home_win_rate avg_goals_scored home_goals_avg].
  assert (away_matches df t = []) as Ha by (by apply len_zero_nil).
  unfold goals_scored, total_wins, total_games, away_wins, away_games. rewrite Ha.
  change (len []) with 0. change (col_sum FTAG []) with 0.
  change (len (filter (λ m, FTR m = "A"%string) [])) with 0.
  rewrite !Z.add_0_r.
  split; [reflexivity |]. split; [reflexivity |]. split; [reflexivity |].
  case_bool_decide as Hpos.
  - by rewrite Z.max_l by lia.
  - assert (home_matches df t = []) as ->.
    { apply len_zero_nil. pose proof (len_nonneg (home_matches df t)).
      unfold home_games in Hpos. lia. }
    reflexivity.
Qed.

Lemma no_away_games_witness :
  away_games (take 5 ten_games) "Arsenal" = 0
  ∧ ∃ s, team_entry (take 5 ten_games) "Arsenal" = Some s
      ∧ (away_win_rate s == 0)%Q ∧ (away_goals_avg s == 0)%Q
      ∧ (win_rate s == home_win_rate s)%Q
      ∧ (avg_goals_scored s == home_goals_avg s)%Q.
Proof.
  split; [reflexivity |].
  apply (no_away_games (take 5 ten_games) "Arsenal"). reflexivity.
Defined.

End AggregatorInvariants.

(** ** Facts about the training frame and the training script *)

Module TrainingFacts.
Import Py PrepareData TrainModel Notions.

Lemma getitem_Some_elem_of {V} (d : list (string * V)) (k : string) (v : V) :
  getitem d k = Some v → (k, v) ∈ d.
Proof.
  induction d as [| [k' v'] d IH]; cbn [getitem]; [discriminate |].
  case_decide as Hk.
  - intros [= <-]. subst. left.
  - intros Hv. right. by apply IH.
Qed.

Lemma result_code_None (ftr : string) :
  getitem result_code ftr = None ↔ ftr ∉ ["H"; "D"; "A"]%string.
Proof.
  unfold result_code. cbn [getitem]. rewrite !not_elem_of_cons.
  repeat case_decide; subst; split; try discriminate; try tauto.
  intros _. repeat split; try congruence. apply not_elem_of_nil.
Qed.

Lemma create_training_data_cons_kept (team_stats : gmap string TeamStatistics)
    (m : MatchRecord) (df : DataFrame) (hs as_ : TeamStatistics) :
  team_stats !! HomeTeam m = Some hs → team_stats !! AwayTeam m = Some as_ →
  create_training_data (m :: df) team_stats =
    result ← getitem result_code (FTR m);
    rows ← create_training_data df team_stats;
    Some (training_row hs as_ result :: rows).
Proof. intros Hh Ha. cbn [create_training_data]. by rewrite Hh, Ha. Qed.

Lemma create_training_data_cons_skipped (team_stats : gmap string TeamStatistics)
    (m : MatchRecord) (df : DataFrame) :
  ¬ kept team_stats m →
  create_training_data (m :: df) team_stats = create_training_data df team_stats.
Proof.
  intros Hk. cbn [create_training_data].
  destruct (team_stats !! HomeTeam m) as [hs |] eqn:Hh; [| done].
  destruct (team_stats !! AwayTeam m) as [as_ |] eqn:Ha; [| done].
  destruct Hk. unfold kept. rewrite Hh, Ha. eauto.
Qed.

(** What [create_training_data] returns when it returns. *)
Lemma create_training_data_Some (df : DataFrame)
    (team_stats : gmap string TeamStatistics) (rows : list Row) :
  create_training_data df team_stats = Some rows →
  Forall2 (row_of team_stats) (filter (kept team_stats) df) rows.
Proof.
  revert rows. induction df as [| m df IH]; intros rows.
  - intros [= <-]. constructor.
  - destruct (decide (kept team_stats m)) as [Hk | Hk].
    + rewrite filter_cons_True by done.
      destruct Hk as [[hs Hh] [as_ Ha]].
      rewrite (create_training_data_cons_kept _ _ _ hs as_ Hh Ha).
      destruct (getitem result_code (FTR m)) as [result |] eqn:Hr; [| discriminate].
      destruct (create_training_data df team_stats) as [rows' |]; [| discriminate].
      cbn. intros [= <-]. constructor; [| by apply IH].
      by exists hs, as_, result.
    + rewrite filter_cons_False by done.
      rewrite create_training_data_cons_skipped by done. apply IH.
Qed.

(** When no match is skipped and every code is known, it returns. *)
Lemma create_training_data_returns (df : DataFrame)
    (team_stats : gmap string TeamStatistics) :
  (∀ m, m ∈ df → kept team_stats m ∧ FTR m ∈ ["H"; "D"; "A"]%string) →
  is_Some (create_training_data df team_stats).
Proof.
  induction df as [| m df IH]; intros Hall; [by eexists |].
  destruct (Hall m) as [[[hs Hh] [as_ Ha]] Hcode]; [left |].
  rewrite (create_training_data_cons_kept _ _ _ hs as_ Hh Ha).
  destruct (getitem result_code (FTR m)) as [result |] eqn:Hr.
  - destruct IH as [rows Hrows]; [intros m' Hm'; apply Hall; by right |].
    rewrite Hrows. by eexists.
  - apply result_code_None in Hr. done.
Qed.

Lemma filter_all {A} (P : A → Prop) `{∀ x, Decision (P x)} (l : list A) :
  (∀ x, x ∈ l → P x) → filter P l = l.
Proof.
  induction l as [| x l IH]; intros Hall; [done |].
  rewrite filter_cons_True by (apply Hall; left).
  f_equal. apply IH. intros y Hy. apply Hall. by right.
Qed.

Lemma row_of_columns (team_stats : gmap string TeamStatistics) (m : MatchRecord)
    (row : Row) (hs as_ : TeamStatistics) :
  row_of team_stats m row →
  filter (λ c, c ≠ "result"%string) row.*1 = (App.features hs as_).*1
  ∧ row.*1 = (App.features hs as_).*1 ++ ["result"%string].
Proof. intros (hs' & as' & result & _ & _ & _ & ->). split; reflexivity. Qed.

(** *** [max] with a key *)

Lemma max_from_spec {A} (key : A → Q) (best : A) (xs : list A) (b : A) :
  max_from key best xs = b →
  (b = best ∧ Forall (λ x, key x <= key best)%Q xs)
  ∨ ∃ before after,
      xs = before ++ b :: after
      ∧ (key best < key b)%Q
      ∧ Forall (λ x, key x < key b)%Q before
      ∧ Forall (λ x, key x <= key b)%Q after.
Proof.
  revert best. induction xs as [| x xs IH]; intros best; cbn [max_from].
  - intros <-. left. split; [done | constructor].
  - destruct (Qlt_le_dec (key best) (key x)) as [Hlt | Hle]; intros Hb.
    + right. destruct (IH x Hb) as [[-> Hall] | (before & after & -> & Hx & Hbef & Haft)].
      * exists [], xs. repeat split; [done | constructor | done].
      * exists (x :: before), after. repeat split; [lra | | done].
        constructor; [done | done].
    + destruct (IH best Hb) as [[-> Hall] | (before & after & -> & Hx & Hbef & Haft)].
      * left. split; [done |]. constructor; done.
      * right. exists (x :: before), after. repeat split; [done | | done].
        constructor; [lra | done].
Qed.

(** *** The name map *)

Lemma NAME_MAP_values_fixed :
  Forall (λ kv, replace NAME_MAP kv.2 = kv.2) NAME_MAP.
Proof. apply (bool_decide_unpack _). vm_compute. exact I. Qed.

Lemma NAME_MAP_aliases_moved :
  Forall (λ kv, kv.1 ≠ kv.2 → replace NAME_MAP kv.1 ≠ kv.1) NAME_MAP.
Proof. apply (bool_decide_unpack _). vm_compute. exact I. Qed.

Lemma replace_NAME_MAP_idem (x : string) :
  replace NAME_MAP (replace NAME_MAP x) = replace NAME_MAP x.
Proof.
  unfold replace at 2 3. destruct (getitem NAME_MAP x) as [v |] eqn:Hx; cbn [default].
  - apply getitem_Some_elem_of in Hx.
    pose proof NAME_MAP_values_fixed as Hfix. rewrite Forall_forall in Hfix.
    exact (Hfix _ Hx).
  - unfold replace. by rewrite Hx.
Qed.

End TrainingFacts.

(** ** The training frame and the training script *)

Module TrainingFrame.
Import Py PrepareData TrainModel Notions Fixtures AggregatorFacts TrainingFacts.

(** X10. When [create_training_data] returns, its rows are, in order, the
    rows made of the matches whose two teams are keys of [team_stats]; the
    other matches are skipped. *)
Theorem rows_follow_kept_matches (df : DataFrame)
    (team_stats : gmap string TeamStatistics) (rows : list Row) :
  create_training_data df team_stats = Some rows →
  Forall2 (row_of team_stats) (filter (kept team_stats) df) rows
  ∧ length rows = length (filter (kept team_stats) df).
Proof.
  intros Hrows. pose proof (create_training_data_Some _ _ _ Hrows) as HF.
  split; [done |]. symmetry. by eapply Forall2_length.
Qed.

Lemma rows_follow_kept_matches_witness :
  ∃ rows, create_training_data ten_games (delete "Luton"%string snapshot) = Some rows
    ∧ Forall2 (row_of (delete "Luton"%string snapshot))
        (filter (kept (delete "Luton"%string snapshot)) ten_games) rows
    ∧ length rows = length (filter (kept (delete "Luton"%string snapshot)) ten_games)
    ∧ length rows = 8%nat.
Proof.
  eexists. split; [vm_compute; reflexivity |].
  edestruct (rows_follow_kept_matches ten_games (delete "Luton"%string snapshot))
    as [Hrows Hlen]; [vm_compute; reflexivity |].
  split; [exact Hrows |]. split; [exact Hlen | reflexivity].
Defined.

(** X11. [create_training_data] raises (the [KeyError] of the result
    lookup) exactly when some match that is not skipped has a result code
    other than H, D, A. *)
Theorem key_error_iff_bad_code (df : DataFrame)
    (team_stats : gmap string TeamStatistics) :
  create_training_data df team_stats = None ↔
  ∃ m, m ∈ df ∧ kept team_stats m ∧ FTR m ∉ ["H"; "D"; "A"]%string.
Proof.
  induction df as [| m df IH].
  - split; [discriminate | intros (m & Hm & _); by apply elem_of_nil in Hm].
  - destruct (decide (kept team_stats m)) as [Hk | Hk].
    + pose proof Hk as [[hs Hh] [as_ Ha]].
      rewrite (create_training_data_cons_kept _ _ _ hs as_ Hh Ha).
      destruct (getitem result_code (FTR m)) as [result |] eqn:Hr.
      * cbn. destruct (create_training_data df team_stats) as [rows' |] eqn:Hrows; cbn.
        -- split; [discriminate |]. intros (m' & Hm' & Hk' & Hbad).
           apply elem_of_cons in Hm' as [-> | Hm'].
           ++ apply result_code_None in Hbad. congruence.
           ++ assert (Some rows' = None) as Hn by (apply IH; eauto). discriminate.
        -- split; [intros _ | done].
           destruct (proj1 IH eq_refl) as (m' & Hm' & Hk' & Hbad).
           exists m'. split; [by right | done].
      * cbn. split; [intros _ | done].
        exists m. split; [left | split; [done | by apply result_code_None]].
    + rewrite create_training_data_cons_skipped by done. rewrite IH. split.
      * intros (m' & Hm' & Hrest). exists m'. split; [by right | done].
      * intros (m' & Hm' & Hk' & Hbad).
        apply elem_of_cons in Hm' as [-> | Hm']; [done | eauto].
Qed.

(** X12. With the statistics computed from the same frame and result codes
    among H, D, A, no match is skipped: the training frame has one row per
    match, in order. *)
Theorem one_row_per_match (df : DataFrame) :
  (∀ m, m ∈ df → FTR m ∈ ["H"; "D"; "A"]%string) →
  ∃ stats rows,
    calculate_team_stats df = Some stats
    ∧ create_training_data df stats = Some rows
    ∧ Forall2 (row_of stats) df rows
    ∧ length rows = length df.
Proof.
  intros Hcodes.
  destruct (calculate_team_stats_lookup df) as (stats & Hstats & Hlk).
  assert (∀ m, m ∈ df → kept stats m) as Hkept.
  { intros m Hm. split; rewrite Hlk.
    - rewrite decide_True by (apply elem_of_teams; eauto). apply team_entry_total.
    - rewrite decide_True by (apply elem_of_teams; eauto). apply team_entry_total. }
  destruct (create_training_data_returns df stats) as [rows Hrows];
    [intros m Hm; split; [by apply Hkept | by apply Hcodes] |].
  exists stats, rows. split; [done |]. split; [done |].
  pose proof (create_training_data_Some _ _ _ Hrows) as HF.
  rewrite (filter_all _ _ Hkept) in HF.
  split; [done |]. symmetry. by eapply Forall2_length.
Qed.

Lemma one_row_per_match_witness :
  (∀ m, m ∈ ten_games → FTR m ∈ ["H"; "D"; "A"]%string)
  ∧ ∃ stats rows,
      calculate_team_stats ten_games = Some stats
      ∧ create_training_data ten_games stats = Some rows
      ∧ Forall2 (row_of stats) ten_games rows
      ∧ length rows = length ten_games.
Proof.
  assert (∀ m, m ∈ ten_games → FTR m ∈ ["H"; "D"; "A"]%string) as Hcodes.
  { apply Forall_forall. apply (bool_decide_unpack _). vm_compute. exact I. }
  split; [exact Hcodes | exact (one_row_per_match ten_games Hcodes)].
Defined.

(** X13. For every non-empty frame returned by [create_training_data] the
    training script's [feature_cols] are the 23 names of the dict built by
    [predict], in its order; the target column is not among them, and
    every row has exactly these columns followed by the target. *)
Theorem feature_cols_of_training_frame (df : DataFrame)
    (team_stats : gmap string TeamStatistics) (rows : list Row) :
  create_training_data df team_stats = Some rows → rows ≠ [] →
  (∀ hs as_, feature_cols rows = (App.features hs as_).*1)
  ∧ length (feature_cols rows) = 23%nat
  ∧ ("result"%string ∉ feature_cols rows)
  ∧ Forall (λ row : Row, row.*1 = feature_cols rows ++ ["result"%string]) rows.
Proof.
  intros Hrows Hne. pose proof (create_training_data_Some _ _ _ Hrows) as HF.
  set (z := {| win_rate := 0; draw_rate := 0; loss_rate := 0; avg_goals_scored := 0;
               avg_goals_conceded := 0; goal_difference := 0; points_per_game := 0;
               home_win_rate := 0; away_win_rate := 0; home_goals_avg := 0;
               away_goals_avg := 0; shots_avg := 0; shots_on_target_avg := 0 |}%Q).
  assert (feature_cols rows = (App.features z z).*1) as Hcols.
  { destruct HF as [| m row ms rows' Hrow _]; [done |].
    unfold feature_cols, columns. exact (proj1 (row_of_columns _ _ _ z z Hrow)). }
  split; [intros hs as_; by rewrite Hcols |].
  rewrite Hcols. split; [reflexivity |]. split.
  - apply (bool_decide_unpack _). vm_compute. exact I.
  - clear -HF. induction HF as [| m row ms rows' Hrow _ IH]; constructor; [| done].
    exact (proj2 (row_of_columns _ _ _ z z Hrow)).
Qed.

Lemma feature_cols_of_training_frame_witness :
  ∃ rows, create_training_data ten_games snapshot = Some rows ∧ rows ≠ []
    ∧ (∀ hs as_, feature_cols rows = (App.features hs as_).*1)
    ∧ length (feature_cols rows) = 23%nat
    ∧ ("result"%string ∉ feature_cols rows)
    ∧ Forall (λ row : Row, row.*1 = feature_cols rows ++ ["result"%string]) rows.
Proof.
  eexists. split; [vm_compute; reflexivity |]. split; [discriminate |].
  apply (feature_cols_of_training_frame ten_games snapshot); [reflexivity | discriminate].
Defined.

(** X14. [best_name] is the name of the first model, in the order of the
    dict, whose test accuracy is the largest: every model before it is
    strictly less accurate and no model after it is more accurate. *)
Theorem best_name_first_maximum {M} (results : list (string * Result M)) (name : string) :
  best_name results = Some name →
  ∃ before best after,
    results = before ++ (name, best) :: after
    ∧ Forall (λ item, test_acc item.2 < test_acc best)%Q before
    ∧ Forall (λ item, test_acc item.2 <= test_acc best)%Q after.
Proof.
  unfold best_name, max_by. destruct results as [| first rest]; [discriminate |].
  cbn. intros [= Hname].
  destruct (max_from (λ item, test_acc item.2) first rest) as [n best] eqn:Hmax.
  cbn in Hname. subst n.
  apply max_from_spec in Hmax as [[<- Hall] | (before & after & -> & Hlt & Hbef & Haft)].
  - exists [], best, rest. repeat split; [constructor | done].
  - exists (first :: before), best, after. repeat split; [| done].
    constructor; done.
Qed.

Lemma best_name_first_maximum_witness :
  best_name three_results = Some "Random Forest"%string
  ∧ ∃ before best after,
      three_results = before ++ ("Random Forest"%string, best) :: after
      ∧ Forall (λ item, test_acc item.2 < test_acc best)%Q before
      ∧ Forall (λ item, test_acc item.2 <= test_acc best)%Q after.
Proof.
  split; [reflexivity |].
  apply (best_name_first_maximum three_results "Random Forest"). reflexivity.
Defined.

(** X15. Mapping the team names is idempotent and keeps the number of
    rows, and after it no alias of the name map (a key mapped to a different
    name) is a team of the frame. *)
Theorem team_names_normalised (df : DataFrame) :
  map_team_names (map_team_names df) = map_team_names df
  ∧ length (map_team_names df) = length df
  ∧ ∀ alias short, (alias, short) ∈ NAME_MAP → alias ≠ short →
      alias ∉ teams (map_team_names df).
Proof.
  split; [| split].
  - unfold map_team_names. rewrite <- list_fmap_compose.
    apply list_fmap_ext. intros i m _. unfold compose.
    cbn [Season HomeTeam AwayTeam FTHG FTAG FTR HS AS HST AST].
    by rewrite !replace_NAME_MAP_idem.
  - unfold map_team_names. apply length_fmap.
  - intros alias short Hin Hne Hteam.
    pose proof NAME_MAP_aliases_moved as Hmoved. rewrite Forall_forall in Hmoved.
    apply (Hmoved _ Hin Hne). cbn [fst].
    apply elem_of_teams in Hteam as (m' & Hm' & Hside).
    unfold map_team_names in Hm'. apply list_elem_of_fmap in Hm' as (m & -> & Hm).
    cbn [HomeTeam AwayTeam] in Hside.
    destruct Hside as [<- | <-]; apply replace_NAME_MAP_idem.
Qed.

End TrainingFrame.

(** ** Further facts about the prediction service *)

Module ServiceFacts.
Import Py PrepareData App Notions Fixtures AppFacts DoubleFacts TallyFacts.

Lemma falsy_name (name : string) : name ≠ ""%string → falsy (Some name) = false.
Proof. intros Hne. cbn. by apply bool_decide_eq_false_2. Qed.

(** The trace of the part of [predict] after validation, whatever its
    outcome. *)
Lemma predict_known_trace (st : Artifacts) (h a : option string) (hs as_ : TeamStatistics) :
  match feature_array (feature_cols st) (features hs as_) with
  | None => predict_known st h a hs as_ = (inl KeyError, [])
  | Some X =>
      match scaler_transform st X with
      | None => predict_known st h a hs as_ = (inl ExternalError, [CallTransform X])
      | Some X_scaled =>
          match model_predict st X_scaled with
          | None => predict_known st h a hs as_
                    = (inl ExternalError, [CallTransform X; CallPredict X_scaled])
          | Some _ => (predict_known st h a hs as_).2 = calls_in_order X X_scaled
          end
      end
  end.
Proof.
  unfold predict_known, bind, raising, external, ret, calls_in_order.
  destruct (feature_array _ _) as [X |]; [| reflexivity].
  destruct (scaler_transform st X) as [Xs |]; [| reflexivity].
  destruct (model_predict st Xs) as [i |]; [| reflexivity].
  destruct (model_predict_proba st Xs) as [ps |]; [| reflexivity].
  destruct (index outcomes i); [| reflexivity].
  destruct (index ps 0); [| reflexivity].
  destruct (index ps 1); [| reflexivity].
  destruct (index ps 2); reflexivity.
Qed.

Lemma predict_trace_of_known (st : Artifacts) (data : Request) :
  (predict st data).2 = []
  ∨ ∃ hs as_,
      stats_of st (req_home_team data) = Some hs
      ∧ stats_of st (req_away_team data) = Some as_
      ∧ (predict st data).2
        = (predict_known st (req_home_team data) (req_away_team data) hs as_).2.
Proof.
  unfold predict.
  destruct (falsy (req_home_team data) || falsy (req_away_team data)); [by left |].
  destruct (bool_decide (req_home_team data = req_away_team data)); [by left |].
  destruct (stats_of st (req_home_team data)) as [hs |]; [| by left].
  destruct (stats_of st (req_away_team data)) as [as_ |]; [| by left].
  right. exists hs, as_. split; [done |]. split; [done |].
  by destruct (predict_known st _ _ hs as_) as [[e | b] cs].
Qed.

Lemma index_short {A} (l : list A) : (length l < 3)%nat → index l 2 = None.
Proof.
  destruct l as [| x0 [| x1 [| x2 l]]]; cbn [length]; intros Hl;
    [reflexivity | reflexivity | reflexivity | lia].
Qed.

Lemma close_call_three_way : three_way_classifier close_call.
Proof.
  intros X ps [= <-]. split; [reflexivity |]. split.
  - repeat constructor; discriminate.
  - split; reflexivity.
Qed.

Lemma close_call_probability : probability_classifier close_call.
Proof.
  intros X ps [= <-]. split; [reflexivity |]. split.
  - repeat constructor; discriminate.
  - split; [by vm_compute | reflexivity].
Qed.

(** A 200 comes from the part of [predict] after validation, on the
    statistics of the two teams of the request. *)
Lemma predict_ok_request (st : Artifacts) (data : Request) (body : Body)
    (calls : list Call) :
  predict st data = (Http200 body, calls) →
  ∃ hs as_,
    stats_of st (req_home_team data) = Some hs
    ∧ stats_of st (req_away_team data) = Some as_
    ∧ predict_known st (req_home_team data) (req_away_team data) hs as_
      = (inr body, calls).
Proof.
  unfold predict.
  destruct (falsy (req_home_team data) || falsy (req_away_team data)); [discriminate |].
  destruct (bool_decide (req_home_team data = req_away_team data)); [discriminate |].
  destruct (stats_of st (req_home_team data)) as [hs |]; [| discriminate].
  destruct (stats_of st (req_away_team data)) as [as_ |]; [| discriminate].
  destruct (predict_known st _ _ hs as_) as [[e | b] cs] eqn:Hk; [discriminate |].
  intros [= <- <-]. eauto.
Qed.

End ServiceFacts.

(** ** Behaviour of the prediction service *)

Module ServiceBehaviour.
Import Py PrepareData App Notions Fixtures AppFacts DoubleFacts TallyFacts ServiceFacts.

(** X16. The list served by [get_teams] is sorted, has no repetition and
    holds exactly the keys of the loaded statistics; a request naming two
    different non-empty names of that list is never answered with a
    validation error. *)
Theorem teams_endpoint (st : Artifacts) :
  Sorted str_le (TEAMS st) ∧ NoDup (TEAMS st)
  ∧ (∀ t, t ∈ TEAMS st ↔ is_Some (team_stats st !! t))
  ∧ ∀ h a msg, h ∈ TEAMS st → a ∈ TEAMS st → h ≠ a → h ≠ ""%string → a ≠ ""%string →
      (predict st {| req_home_team := Some h; req_away_team := Some a |}).1 ≠ Http400 msg.
Proof.
  assert (∀ t, t ∈ TEAMS st ↔ is_Some (team_stats st !! t)) as Hkeys.
  { intros t. unfold TEAMS, sorted. rewrite merge_sort_Permutation.
    by rewrite elem_of_elements, elem_of_dom. }
  split; [apply (@Sorted_merge_sort _ str_le _ str_le_total) |].
  split; [unfold TEAMS, sorted; rewrite merge_sort_Permutation; apply NoDup_elements |].
  split; [exact Hkeys |].
  intros h a msg [hs Hhs]%Hkeys [as_ Has]%Hkeys Hne Hh Ha.
  rewrite (predict_known_outcome st _ hs as_); cbn [req_home_team req_away_team].
  - destruct (predict_known st (Some h) (Some a) hs as_) as [[e | b] cs]; discriminate.
  - by apply falsy_name.
  - by apply falsy_name.
  - congruence.
  - exact Hhs.
  - exact Has.
Qed.

(** X17. The three scripts compose: when the stored feature names are the
    [feature_cols] of a non-empty frame of [create_training_data], the
    scaler accepts 23 values and the classifier is a three-way classifier
    that answers, [predict] answers every request naming two different known
    teams with a 200, after handing 23 values to the scaler; the response
    echoes the two names. *)
Theorem pipeline_serves_every_pair (st : Artifacts) (df : DataFrame)
    (stats : gmap string TeamStatistics) (rows : list Row) (h a : string) :
  create_training_data df stats = Some rows → rows ≠ [] →
  feature_cols st = TrainModel.feature_cols rows →
  (∀ X, length X = 23%nat → is_Some (scaler_transform st X)) →
  three_way_classifier st → (∀ X, is_Some (model_predict_proba st X)) →
  is_Some (team_stats st !! h) → is_Some (team_stats st !! a) →
  h ≠ a → h ≠ ""%string → a ≠ ""%string →
  ∃ body X X_scaled,
    predict st {| req_home_team := Some h; req_away_team := Some a |}
    = (Http200 body, calls_in_order X X_scaled)
    ∧ length X = 23%nat
    ∧ home_team body = Some h ∧ away_team body = Some a.
Proof.
  intros Hrows Hne Hcols Hscaler Hcl Hproba [hs Hhs] [as_ Has] Hha Hh Ha.
  rewrite (predict_known_outcome st _ hs as_);
    [| by apply falsy_name | by apply falsy_name | cbn; congruence | exact Hhs | exact Has].
  cbn [req_home_team req_away_team].
  assert (feature_cols st = (features hs as_).*1) as Hnames.
  { rewrite Hcols. destruct rows as [| row rows']; [done |].
    cbn [create_training_data] in Hrows. clear -Hrows.
    revert row rows' Hrows. induction df as [| m df IH]; intros row rows'; [discriminate |].
    cbn [create_training_data].
    destruct (stats !! HomeTeam m) as [hs' |]; [| by apply IH].
    destruct (stats !! AwayTeam m) as [as' |]; [| by apply IH].
    destruct (getitem result_code (FTR m)) as [result |]; [| discriminate].
    cbn. destruct (create_training_data df stats) as [rs |]; [| discriminate].
    cbn. intros [= <- _]. reflexivity. }
  assert (feature_array (feature_cols st) (features hs as_) = Some (features hs as_).*2)
    as HX by (rewrite Hnames; reflexivity).
  assert (length (features hs as_).*2 = 23%nat) as H23 by reflexivity.
  destruct (Hscaler (features hs as_).*2 H23) as [Xs HXs].
  destruct (Hproba Xs) as [ps Hps].
  destruct (Hcl Xs ps Hps) as (Hlen & _ & _ & Hpred).
  destruct ps as [| p0 [| p1 [| p2 [| ? ?]]]]; try discriminate.
  destruct (argmax [p0; p1; p2]) as [i |] eqn:Harg; [| discriminate].
  destruct (argmax_of_three _ _ _ _ Harg) as (p & Hp & _).
  assert (is_Some (index outcomes i)) as [label Hlabel].
  { unfold argmax in Harg. cbn [argmax_from] in Harg.
    destruct (Qlt_le_dec p0 p1); [destruct (Qlt_le_dec p1 p2) | destruct (Qlt_le_dec p0 p2)];
      injection Harg as <-; eauto. }
  unfold predict_known, bind, raising, external, ret.
  rewrite HX, HXs, Hpred, Hps, Hlabel.
  change (index [p0; p1; p2] 0) with (Some p0).
  change (index [p0; p1; p2] 1) with (Some p1).
  change (index [p0; p1; p2] 2) with (Some p2).
  cbn. eexists _, _, _. split; [reflexivity |]. split; [exact H23 | split; reflexivity].
Qed.

Lemma pipeline_serves_every_pair_witness :
  ∃ rows, create_training_data ten_games snapshot = Some rows ∧ rows ≠ []
    ∧ feature_cols close_call = TrainModel.feature_cols rows
    ∧ (∀ X, length X = 23%nat → is_Some (scaler_transform close_call X))
    ∧ three_way_classifier close_call
    ∧ (∀ X, is_Some (model_predict_proba close_call X))
    ∧ is_Some (team_stats close_call !! "Fulham"%string)
    ∧ is_Some (team_stats close_call !! "Luton"%string)
    ∧ ∃ body X X_scaled,
        predict close_call {| req_home_team := Some "Fulham"%string;
                              req_away_team := Some "Luton"%string |}
        = (Http200 body, calls_in_order X X_scaled)
        ∧ length X = 23%nat
        ∧ home_team body = Some "Fulham"%string ∧ away_team body = Some "Luton"%string.
Proof.
  assert (∀ X, length X = 23%nat → is_Some (scaler_transform close_call X)) as Hscaler.
  { intros X HX. cbn. unfold scaler23. rewrite decide_True by done. eauto. }
  pose proof close_call_three_way as Hcl.
  assert (∀ X, is_Some (model_predict_proba close_call X)) as Hproba by (intros X; cbn; eauto).
  assert (is_Some (team_stats close_call !! "Fulham"%string)) as Hf by (vm_compute; eauto).
  assert (is_Some (team_stats close_call !! "Luton"%string)) as Hl by (vm_compute; eauto).
  eexists. split; [vm_compute; reflexivity |]. split; [discriminate |].
  split; [reflexivity |]. split; [exact Hscaler |]. split; [exact Hcl |].
  split; [exact Hproba |]. split; [exact Hf |]. split; [exact Hl |].
  eapply (pipeline_serves_every_pair close_call ten_games snapshot _ "Fulham" "Luton");
    first [exact Hscaler | exact Hcl | exact Hproba | exact Hf | exact Hl
          | discriminate | reflexivity | (vm_compute; reflexivity)].
Defined.

(** X18. The external calls of [predict] are always a prefix of: the
    scaler on the feature array, then [predict] and [predict_proba] of the
    classifier on what the scaler returned.  The classifier is never called
    on anything else, nor after the scaler has failed. *)
Theorem classifier_sees_scaled_features (st : Artifacts) (data : Request) :
  (predict st data).2 = []
  ∨ ∃ hs as_ X,
      stats_of st (req_home_team data) = Some hs
      ∧ stats_of st (req_away_team data) = Some as_
      ∧ feature_array (feature_cols st) (features hs as_) = Some X
      ∧ (((predict st data).2 = [CallTransform X] ∧ scaler_transform st X = None)
         ∨ ∃ X_scaled,
             scaler_transform st X = Some X_scaled
             ∧ (((predict st data).2 = [CallTransform X; CallPredict X_scaled]
                 ∧ model_predict st X_scaled = None)
                ∨ (predict st data).2 = calls_in_order X X_scaled)).
Proof.
  destruct (predict_trace_of_known st data) as [Hnil | (hs & as_ & Hhs & Has & Hcalls)];
    [by left |].
  pose proof (predict_known_trace st (req_home_team data) (req_away_team data) hs as_)
    as Htrace.
  destruct (feature_array (feature_cols st) (features hs as_)) as [X |] eqn:HX.
  - right. exists hs, as_, X. split; [done |]. split; [done |]. split; [done |].
    destruct (scaler_transform st X) as [Xs |] eqn:HXs.
    + right. exists Xs. split; [done |].
      destruct (model_predict st Xs) as [i |] eqn:Hi.
      * right. by rewrite Hcalls.
      * left. split; [| done]. by rewrite Hcalls, Htrace.
    + left. split; [| done]. by rewrite Hcalls, Htrace.
  - left. by rewrite Hcalls, Htrace.
Qed.

(** X19. A classifier that returns fewer than three probabilities (one
    fitted on a target with a class missing) makes every otherwise valid
    request raise [IndexError], after the scaler and the classifier have been
    called. *)
Theorem too_few_probabilities (st : Artifacts) (data : Request)
    (hs as_ : TeamStatistics) (X X_scaled ps : list Q) (i : Z) :
  falsy (req_home_team data) = false → falsy (req_away_team data) = false →
  req_home_team data ≠ req_away_team data →
  stats_of st (req_home_team data) = Some hs →
  stats_of st (req_away_team data) = Some as_ →
  feature_array (feature_cols st) (features hs as_) = Some X →
  scaler_transform st X = Some X_scaled →
  model_predict st X_scaled = Some i →
  model_predict_proba st X_scaled = Some ps →
  (length ps < 3)%nat →
  predict st data = (Raised IndexError, calls_in_order X X_scaled).
Proof.
  intros Hh Ha Hne Hhs Has HX HXs Hi Hps Hlen.
  rewrite (predict_known_outcome st data hs as_ Hh Ha Hne Hhs Has).
  unfold predict_known, bind, raising, external, ret.
  rewrite HX, HXs, Hi, Hps, (index_short ps Hlen).
  destruct (index outcomes i); [| reflexivity].
  destruct (index ps 0); [| reflexivity].
  destruct (index ps 1); reflexivity.
Qed.

Lemma too_few_probabilities_witness :
  falsy (req_home_team arsenal_chelsea) = false
  ∧ falsy (req_away_team arsenal_chelsea) = false
  ∧ req_home_team arsenal_chelsea ≠ req_away_team arsenal_chelsea
  ∧ (length [7 # 10; 3 # 10]%Q < 3)%nat
  ∧ ∃ hs as_ X X_scaled,
    stats_of two_classes (req_home_team arsenal_chelsea) = Some hs
    ∧ stats_of two_classes (req_away_team arsenal_chelsea) = Some as_
    ∧ feature_array (feature_cols two_classes) (features hs as_) = Some X
    ∧ scaler_transform two_classes X = Some X_scaled
    ∧ model_predict two_classes X_scaled = Some 0
    ∧ model_predict_proba two_classes X_scaled = Some [7 # 10; 3 # 10]%Q
    ∧ predict two_classes arsenal_chelsea = (Raised IndexError, calls_in_order X X_scaled).
Proof.
  split; [reflexivity |]. split; [reflexivity |]. split; [discriminate |].
  split; [cbn; lia |].
  eexists _, _, _, _. split; [vm_compute; reflexivity |].
  split; [vm_compute; reflexivity |]. split; [vm_compute; reflexivity |].
  split; [vm_compute; reflexivity |]. split; [reflexivity |]. split; [reflexivity |].
  eapply (too_few_probabilities two_classes arsenal_chelsea);
    first [discriminate | reflexivity | (vm_compute; reflexivity) | (cbn; lia)].
Defined.

(** X20. In every successful response under a probability classifier
    each returned percentage is [round(float(p) * 100, 1)] of the probability
    the classifier gave to that class on the scaled feature array of the
    request; it lies between 0 and 100 and is within 0.05, and the rounding
    of the double operations, of one hundred times that probability. *)
Theorem percentages_in_range (st : Artifacts) (data : Request)
    (body : Body) (calls : list Call) :
  probability_classifier st →
  predict st data = (Http200 body, calls) →
  ∃ X X_scaled ps,
    calls = calls_in_order X X_scaled
    ∧ model_predict_proba st X_scaled = Some ps
    ∧ Forall (λ item, 0 <= item.2 ∧ item.2 <= 100)%Q (probabilities body)
    ∧ Forall2 (λ item p, item.2 = as_percent p
                         ∧ (Qabs (item.2 - 100 * p) <= (1 # 20) + (1 # 4294967296))%Q)
        (probabilities body) ps.
Proof.
  intros Hcl Hok.
  destruct (predict_ok_request _ _ _ _ Hok) as (hs & as_ & _ & _ & Hk).
  destruct (predict_known_ok _ _ _ _ _ _ _ Hk)
    as (X & Xs & i & ps & p0 & p1 & p2 & _ & _ & _ & Hps & _ & H0 & H1 & H2 & Hpr & Hcalls).
  destruct (Hcl Xs ps Hps) as (Hlen & Hpos & Hsum & _).
  pose proof (index_of_three _ _ _ _ Hlen H0 H1 H2) as ->.
  destruct (classifier_bounds p0 p1 p2 Hpos Hsum) as [([? ?] & [? ?] & [? ?]) _].
  destruct (as_percent_range p0) as [Hr0 Hc0]; [done | done |].
  destruct (as_percent_range p1) as [Hr1 Hc1]; [done | done |].
  destruct (as_percent_range p2) as [Hr2 Hc2]; [done | done |].
  exists X, Xs, [p0; p1; p2]. split; [exact Hcalls |]. split; [exact Hps |].
  rewrite Hpr. split.
  - repeat constructor; cbn [snd]; tauto.
  - repeat constructor; cbn [snd]; done.
Qed.

Lemma percentages_in_range_witness :
  probability_classifier close_call
  ∧ ∃ body calls,
      predict close_call arsenal_chelsea = (Http200 body, calls)
      ∧ ∃ X X_scaled ps,
          calls = calls_in_order X X_scaled
          ∧ model_predict_proba close_call X_scaled = Some ps
          ∧ Forall (λ item, 0 <= item.2 ∧ item.2 <= 100)%Q (probabilities body)
          ∧ Forall2 (λ item p,
                       item.2 = as_percent p
                       ∧ (Qabs (item.2 - 100 * p) <= (1 # 20) + (1 # 4294967296))%Q)
              (probabilities body) ps.
Proof.
  pose proof close_call_probability as Hcl.
  split; [exact Hcl |].
  eexists _, _. split; [vm_compute; reflexivity |].
  eapply (percentages_in_range close_call arsenal_chelsea);
    [exact Hcl | vm_compute; reflexivity].
Defined.

(** X21. Exchanging the two teams negates the three rate differentials
    of the feature dict and exchanges attack_vs_defense with
    defense_vs_attack. *)
Theorem features_swapped (hs as_ : TeamStatistics) :
  (∀ name, name ∈ ["win_rate_diff"; "ppg_diff"; "goal_diff_diff"]%string →
     ∃ v v', getitem (features hs as_) name = Some v
           ∧ getitem (features as_ hs) name = Some v' ∧ (v' == - v)%Q)
  ∧ getitem (features as_ hs) "attack_vs_defense"
    = getitem (features hs as_) "defense_vs_attack"
  ∧ getitem (features as_ hs) "defense_vs_attack"
    = getitem (features hs as_) "attack_vs_defense".
Proof.
  split; [| split; reflexivity].
  intros name Hname. rewrite !elem_of_cons in Hname.
  destruct Hname as [-> | [-> | [-> | Hnil]]]; [| | | by apply elem_of_nil in Hnil].
  - eexists _, _. split; [reflexivity |]. split; [reflexivity |]. cbv beta. ring.
  - eexists _, _. split; [reflexivity |]. split; [reflexivity |]. cbv beta. ring.
  - eexists _, _. split; [reflexivity |]. split; [reflexivity |]. cbv beta. ring.
Qed.

End ServiceBehaviour.


(** ** The aggregator on a superset of matches *)

Module Superset.
Import Py PrepareData Notions Fixtures AggregatorFacts TallyFacts.




End Superset.

(** ** The response of a successful prediction *)

Module Response.
Import Py PrepareData App Notions Fixtures AppFacts DoubleFacts ServiceFacts.

(** C7 (as amended). For every successful call to [predict] under a
    probability classifier, the scaler was called on the feature array of the
    two teams of the request and the classifier on what the scaler returned;
    the response holds exactly three probabilities, home_win, draw and
    away_win, each [round(float(p) * 100, 1)] of the classifier's probability
    for that class, hence the double of a number with one decimal; their sum
    is within 0.1 of 100 up to the rounding of the doubles (2^-40); the label
    is the outcome at the argmax index of the classifier's own distribution,
    and the percentage returned for that index is the largest of the three
    returned ones. *)
Theorem response_distribution (st : Artifacts) (data : Request)
    (body : Body) (calls : list Call) :
  probability_classifier st →
  predict st data = (Http200 body, calls) →
  ∃ hs as_ X X_scaled p0 p1 p2 i r,
    stats_of st (req_home_team data) = Some hs
    ∧ stats_of st (req_away_team data) = Some as_
    ∧ feature_array (feature_cols st) (features hs as_) = Some X
    ∧ scaler_transform st X = Some X_scaled
    ∧ calls = calls_in_order X X_scaled
    ∧ model_predict_proba st X_scaled = Some [p0; p1; p2]
    ∧ probabilities body
      = [("home_win", as_percent p0); ("draw", as_percent p1);
         ("away_win", as_percent p2)]%string
    ∧ (∃ n0 n1 n2 : Z,
         as_percent p0 = to_double (inject_Z n0 / 10)
         ∧ as_percent p1 = to_double (inject_Z n1 / 10)
         ∧ as_percent p2 = to_double (inject_Z n2 / 10))
    ∧ (Qabs (as_percent p0 + as_percent p1 + as_percent p2 - 100)
       <= (1 # 10) + (1 # 1099511627776))%Q
    ∧ model_predict st X_scaled = Some i
    ∧ argmax [p0; p1; p2] = Some i
    ∧ index outcomes i = Some (prediction body)
    ∧ index [as_percent p0; as_percent p1; as_percent p2] i = Some r
    ∧ (as_percent p0 <= r)%Q ∧ (as_percent p1 <= r)%Q ∧ (as_percent p2 <= r)%Q.
Proof.
  intros Hcl Hok.
  destruct (predict_ok_request _ _ _ _ Hok) as (hs & as_ & Hhs & Has & Hk).
  destruct (predict_known_ok _ _ _ _ _ _ _ Hk)
    as (X & Xs & i & ps & p0 & p1 & p2 & HX & HXs & Hi & Hps & Hlabel & H0 & H1 & H2
        & Hpr & Hcalls).
  destruct (Hcl Xs ps Hps) as (Hlen & Hpos & Hsum & Harg).
  pose proof (index_of_three _ _ _ _ Hlen H0 H1 H2) as ->.
  destruct (classifier_bounds p0 p1 p2 Hpos Hsum)
    as [([Hp0 Hq0] & [Hp1 Hq1] & [Hp2 Hq2]) Hsum'].
  rewrite Hi in Harg. symmetry in Harg.
  destruct (argmax_of_three _ _ _ _ Harg) as (p & Hp & Hle0 & Hle1 & Hle2).
  destruct (as_percent_form p0 Hp0 Hq0) as (n0 & Hn0 & _).
  destruct (as_percent_form p1 Hp1 Hq1) as (n1 & Hn1 & _).
  destruct (as_percent_form p2 Hp2 Hq2) as (n2 & Hn2 & _).
  exists hs, as_, X, Xs, p0, p1, p2, i, (as_percent p).
  split; [exact Hhs |]. split; [exact Has |]. split; [exact HX |].
  split; [exact HXs |]. split; [exact Hcalls |]. split; [exact Hps |].
  split; [exact Hpr |]. split; [by exists n0, n1, n2 |].
  split; [by apply as_percent_sum |].
  split; [exact Hi |]. split; [exact Harg |]. split; [exact Hlabel |].
  split.
  { change [as_percent p0; as_percent p1; as_percent p2]
      with (as_percent <$> [p0; p1; p2]).
    by rewrite index_fmap, Hp. }
  repeat split; by apply as_percent_mono.
Qed.

Lemma response_distribution_witness :
  probability_classifier close_call
  ∧ ∃ body calls,
      predict close_call arsenal_chelsea = (Http200 body, calls)
      ∧ ∃ hs as_ X X_scaled p0 p1 p2 i r,
          stats_of close_call (req_home_team arsenal_chelsea) = Some hs
          ∧ stats_of close_call (req_away_team arsenal_chelsea) = Some as_
          ∧ feature_array (feature_cols close_call) (features hs as_) = Some X
          ∧ scaler_transform close_call X = Some X_scaled
          ∧ calls = calls_in_order X X_scaled
          ∧ model_predict_proba close_call X_scaled = Some [p0; p1; p2]
          ∧ probabilities body
            = [("home_win", as_percent p0); ("draw", as_percent p1);
               ("away_win", as_percent p2)]%string
          ∧ (∃ n0 n1 n2 : Z,
               as_percent p0 = to_double (inject_Z n0 / 10)
               ∧ as_percent p1 = to_double (inject_Z n1 / 10)
               ∧ as_percent p2 = to_double (inject_Z n2 / 10))
          ∧ (Qabs (as_percent p0 + as_percent p1 + as_percent p2 - 100)
             <= (1 # 10) + (1 # 1099511627776))%Q
          ∧ model_predict close_call X_scaled = Some i
          ∧ argmax [p0; p1; p2] = Some i
          ∧ index outcomes i = Some (prediction body)
          ∧ index [as_percent p0; as_percent p1; as_percent p2] i = Some r
          ∧ (as_percent p0 <= r)%Q ∧ (as_percent p1 <= r)%Q ∧ (as_percent p2 <= r)%Q.
Proof.
  pose proof close_call_probability as Hcl.
  split; [exact Hcl |].
  eexists _, _. split; [vm_compute; reflexivity |].
  eapply (response_distribution close_call arsenal_chelsea);
    [exact Hcl | vm_compute; reflexivity].
Defined.

(** C7 as stated fails: a successful response whose label is not the
    outcome at the argmax index of the returned probabilities.  The
    classifier's distribution (0.4, 0.4004, 0.1996) has its maximum at
    index 1 (Draw); the returned percentages are 40.0, 40.0, 20.0, whose
    argmax index is 0 (Home Win). *)
Lemma label_not_at_returned_argmax :
  probability_classifier close_call
  ∧ ∃ body calls,
      predict close_call arsenal_chelsea = (Http200 body, calls)
      ∧ prediction body = "Draw"%string
      ∧ Forall2 Qeq (probabilities body).*2 [40; 40; 20]%Q
      ∧ (i ← argmax (probabilities body).*2; index outcomes i) = Some "Home Win"%string
      ∧ (i ← argmax (probabilities body).*2; index outcomes i) ≠ Some (prediction body).
Proof.
  split; [exact close_call_probability |].
  eexists _, _. split; [vm_compute; reflexivity |].
  split; [reflexivity |]. split; [repeat constructor |]. split; [reflexivity |].
  discriminate.
Qed.

(** On doubles the sum of the returned percentages can miss 100 by more
    than 0.1: the distribution (0.0034, 0.0034, 0.9932) is returned as the
    doubles of 0.3, 0.3 and 99.3, which add up to less than 99.9. *)
Lemma sum_beyond_a_tenth :
  probability_classifier rounded_down
  ∧ ∃ body calls r0 r1 r2,
      predict rounded_down arsenal_chelsea = (Http200 body, calls)
      ∧ (probabilities body).*2 = [r0; r1; r2]
      ∧ (r0 == to_double (3 # 10))%Q ∧ (r1 == to_double (3 # 10))%Q
      ∧ (r2 == to_double (993 # 10))%Q
      ∧ (1 # 10 < Qabs (r0 + r1 + r2 - 100))%Q.
Proof.
  split.
  - intros X ps [= <-]. split; [reflexivity |]. split.
    + repeat constructor; discriminate.
    + split; [by vm_compute | reflexivity].
  - eexists _, _, _, _, _. split; [vm_compute; reflexivity |].
    split; [reflexivity |]. split; [reflexivity |]. split; [reflexivity |].
    split; [reflexivity | by vm_compute].
Qed.

End Response.
